(** * FakeProgress: the milestone progress bot (advanced_progress_bot.py)

    A shallow embedding of [ProgressBot] and of the Python it runs on.

    Modelling conventions.
    - A Python [str] is a Rocq [string] holding its UTF-8 bytes.
    - A Python [int] is a [Z].  A Python [float] is the rational [Q] it
      denotes: arithmetic on percentages is exact, the rounding of binary64
      is not modelled.
    - A [dict] literal built by the bot to be sent to Slack is a [pyval];
      the dict returned by [get_milestone_data], whose keys are fixed by the
      code, is the record [MD.t]; a decoded GitHub milestone is [GH.t].
    - [print], [requests.get], [requests.post], [datetime.now] and raised
      exceptions live in the monad [M]: a state ([World]) with an error
      channel.  What the outside answers (the two HTTP services, the clock,
      the [datetime] library) is the section variable [env]. *)

From Stdlib Require Import ZArith QArith Qabs Qround List String Ascii Bool Lia Lqa.
From Stdlib Require Import DecimalString.
Import ListNotations.

Open Scope string_scope.
Open Scope Z_scope.

(* ================================================================= *)
(** ** Exceptions *)

(** [HTTPError], [ConnectionError] and [Timeout] are subclasses of
    [requests.RequestException]; the other two are not. *)
Inductive exn : Type :=
| RequestException (msg : string)
| ValueError (msg : string)
| ZeroDivisionError.

Inductive result (A : Type) : Type :=
| Ok (a : A)
| Raise (e : exn).
Arguments Ok {A}.
Arguments Raise {A}.

(* ================================================================= *)
(** ** Python primitives used by the bot *)

Module Py.

(** [a / b]: true division, which raises on a zero divisor. *)
Definition truediv (a b : Q) : result Q :=
  if Qeq_bool b 0 then Raise ZeroDivisionError else Ok (a / b)%Q.

(** [s * n] on strings: the empty string when [n <= 0]. *)
Fixpoint str_repeat (s : string) (n : nat) : string :=
  match n with
  | O => ""
  | S k => s ++ str_repeat s k
  end.

Definition str_mul (s : string) (n : Z) : string := str_repeat s (Z.to_nat n).

(** [s.replace(c, by)] for a one-character pattern [c]. *)
Fixpoint replace_char (c : ascii) (by_ : string) (s : string) : string :=
  match s with
  | EmptyString => EmptyString
  | String a rest =>
      if Ascii.eqb a c then by_ ++ replace_char c by_ rest
      else String a (replace_char c by_ rest)
  end.

(** [f"{n}"] for an [int]. *)
Definition str_of_int (n : Z) : string := NilZero.string_of_int (Z.to_int n).

(** [int(x)] for a float: truncation towards zero. *)
Definition int_of_float (x : Q) : Z := Z.quot (Qnum x) (Zpos (Qden x)).

(** Rounding to the nearest integer, ties to even, of a non-negative
    rational: what [format] does with the digits it drops. *)
Definition round_half_even (x : Q) : Z :=
  let f := Qfloor x in
  match ((x - inject_Z f) ?= (1 # 2))%Q with
  | Lt => f
  | Gt => f + 1
  | Eq => if Z.even f then f else f + 1
  end.

(** [f"{x:.1f}"]. *)
Definition format_1f (x : Q) : string :=
  let n := round_half_even (Qabs x * 10) in
  ((if Qle_bool 0 x then "" else "-")
     ++ str_of_int (n / 10) ++ "." ++ str_of_int (n mod 10))%string.

(** [sum(xs)]: starts from [0] and adds from the left. *)
Definition sum (xs : list Q) : Q := fold_left Qplus xs 0%Q.

(** Code points of a string: the bytes that are not UTF-8 continuation
    bytes ([10xxxxxx]). *)
Definition is_continuation (a : ascii) : bool :=
  match a with
  | Ascii _ _ _ _ _ _ false true => true
  | _ => false
  end.

Fixpoint len (s : string) : nat :=
  match s with
  | EmptyString => O
  | String a rest => ((if is_continuation a then 0 else 1) + len rest)%nat
  end.

(** [s.count(c)] for a single character [c] (given by its UTF-8 bytes):
    the number of positions of [s] where [c] starts. *)
Fixpoint count (c : string) (s : string) : nat :=
  match s with
  | EmptyString => O
  | String a rest =>
      ((if String.prefix c s then 1 else 0) + count c rest)%nat
  end.

End Py.

(* ================================================================= *)
(** ** Values sent to Slack: nested dict and list literals *)

#[local] Unset Elimination Schemes.
Inductive pyval : Type :=
| PStr (s : string)
| PBool (b : bool)
| PList (l : list pyval)
| PDict (kv : list (string * pyval)).
#[local] Set Elimination Schemes.

(** [d.get(key)]: [None] when [d] has no such key. *)
Fixpoint assoc_get (key : string) (kv : list (string * pyval)) : option pyval :=
  match kv with
  | [] => None
  | (k, v) :: rest => if String.eqb k key then Some v else assoc_get key rest
  end.

Definition dict_get (key : string) (d : pyval) : option pyval :=
  match d with
  | PDict kv => assoc_get key kv
  | _ => None
  end.

(** [d.get(key) == s] for a string literal [s]. *)
Definition get_is (key : string) (s : string) (d : pyval) : bool :=
  match dict_get key d with
  | Some (PStr s') => String.eqb s' s
  | _ => false
  end.

(* ================================================================= *)
(** ** Data model *)

(** The dataclass [ProjectConfig]. *)
Module ProjectConfig.
Record t : Type := mk {
  name : string;
  repo_owner : string;
  repo_name : string;
  milestone_number : Z;
  emoji : string;
  color : string
}.
End ProjectConfig.

(** A milestone object as the GitHub API returns it (the keys the bot
    reads).  [None] stands for JSON [null]. *)
Module GH.
Record t : Type := mk {
  title : string;
  number : Z;
  state : string;
  open_issues : Z;
  closed_issues : Z;
  description : option string;
  due_on : option string;
  html_url : string;
  created_at : string;
  updated_at : string
}.
End GH.

(** The dict [get_milestone_data] returns; its keys are the fields. *)
Module MD.
Record t : Type := mk {
  title : string;
  description : option string;
  total_issues : Z;
  closed_issues : Z;
  open_issues : Z;
  progress_percentage : Q;
  due_date : option string;
  html_url : string;
  created_at : string;
  updated_at : string;
  state : string
}.
End MD.

(** The acknowledgment of [chat.postMessage]; [error = None] when the key
    is missing. *)
Module Slack.
Record result : Type := mk {
  ok : bool;
  error : option string
}.
End Slack.

(** The attributes [__init__] sets, apart from the mutable
    [self.milestones], which lives in the [World]. *)
Module Bot.
Record t : Type := mk {
  slack_token : string;
  github_token : string;
  user_id : string;
  slack_headers : list (string * string);
  github_headers : list (string * string);
  repo_owner : string;
  repo_name : string
}.

Definition init (slack_token github_token user_id : string) : t :=
  {| slack_token := slack_token;
     github_token := github_token;
     user_id := user_id;
     slack_headers := [("Authorization", "Bearer " ++ slack_token);
                       ("Content-Type", "application/json")];
     github_headers := [("Authorization", "token " ++ github_token);
                        ("Accept", "application/vnd.github.v3+json")];
     repo_owner := "leyangloh";
     repo_name := "FakeProgress" |}.
End Bot.

(* ================================================================= *)
(** ** HTTP, exceptions, the world *)

Record request : Type := mk_request {
  method : string;
  url : string;
  headers : list (string * string);
  params : list (string * string);
  json_payload : option pyval
}.

Record response (A : Type) : Type := mk_response {
  status_code : Z;
  reason : string;
  json : A
}.
Arguments mk_response {A}.
Arguments status_code {A}.
Arguments reason {A}.
Arguments json {A}.

(** What a request meets: no response at all (connection error, timeout),
    or a response with a status and a decoded body. *)
Inductive outcome (A : Type) : Type :=
| ConnectionFailed (msg : string)
| Responded (r : response A).
Arguments ConnectionFailed {A}.
Arguments Responded {A}.

Record World : Type := mk_world {
  stdout : list string;                (* lines printed so far *)
  sent : list request;                 (* requests issued so far *)
  clock_reads : nat;                   (* calls of datetime.now() so far *)
  milestones : list ProjectConfig.t    (* self.milestones *)
}.

Definition M (A : Type) : Type := World -> result A * World.

Definition ret {A : Type} (a : A) : M A := fun w => (Ok a, w).

Definition raise {A : Type} (e : exn) : M A := fun w => (Raise e, w).

(** A computation that touches nothing of the world. *)
Definition lift {A : Type} (r : result A) : M A := fun w => (r, w).

Definition bind {A B : Type} (m : M A) (k : A -> M B) : M B :=
  fun w =>
    match m w with
    | (Ok a, w') => k a w'
    | (Raise e, w') => (Raise e, w')
    end.

Notation "x <- c1 ;; c2" := (bind c1 (fun x => c2))
  (at level 61, c1 at next level, right associativity).
Notation "c1 ;; c2" := (bind c1 (fun _ => c2))
  (at level 61, right associativity).

(** [try: body except requests.RequestException as e: handler(str(e))]. *)
Definition try_except_RequestException {A : Type}
    (body : M A) (handler : string -> M A) : M A :=
  fun w =>
    match body w with
    | (Raise (RequestException msg), w') => handler msg w'
    | other => other
    end.

Definition print (line : string) : M unit :=
  fun w => (Ok tt, mk_world (stdout w ++ [line])%list (sent w) (clock_reads w) (milestones w)).

Definition set_milestones (ms : list ProjectConfig.t) : M unit :=
  fun w => (Ok tt, mk_world (stdout w) (sent w) (clock_reads w) ms).

Definition get_milestones : M (list ProjectConfig.t) :=
  fun w => (Ok (milestones w), w).

(** [requests.get] and [requests.post] against a service: the request is
    recorded, and the service's answer to it (which may depend on how many
    requests came before) is returned or raised. *)
Definition send {A : Type} (service : nat -> request -> outcome A)
    (rq : request) : M (response A) :=
  fun w =>
    let w' := mk_world (stdout w) (sent w ++ [rq])%list (clock_reads w) (milestones w) in
    match service (List.length (sent w)) rq with
    | ConnectionFailed msg => (Raise (RequestException msg), w')
    | Responded r => (Ok r, w')
    end.

(** [Response.raise_for_status] of the requests library. *)
Definition http_error_msg {A : Type} (rq : request) (r : response A) : string :=
  if (400 <=? status_code r) && (status_code r <? 500) then
    Py.str_of_int (status_code r) ++ " Client Error: " ++ reason r ++ " for url: " ++ url rq
  else if (500 <=? status_code r) && (status_code r <? 600) then
    Py.str_of_int (status_code r) ++ " Server Error: " ++ reason r ++ " for url: " ++ url rq
  else "".

Definition is_http_error {A : Type} (r : response A) : bool :=
  (400 <=? status_code r) && (status_code r <? 600).

Definition raise_for_status {A : Type} (rq : request) (r : response A) : M unit :=
  if is_http_error r then raise (RequestException (http_error_msg rq r))
  else ret tt.

(** The datetime library, as far as the bot uses it. *)
Record DatetimeLib : Type := mk_lib {
  datetime : Type;
  fromisoformat : string -> option datetime;   (* [None]: raises ValueError *)
  strftime : datetime -> string -> string
}.

(** What the outside answers during one run. *)
Record Outside (lib : DatetimeLib) : Type := mk_outside {
  now : nat -> datetime lib;                                 (* k-th reading of the clock *)
  github_milestones : nat -> request -> outcome (list GH.t); (* list endpoint *)
  github_milestone : nat -> request -> outcome GH.t;         (* get endpoint *)
  slack_postMessage : nat -> request -> outcome Slack.result
}.
Arguments now {lib}.
Arguments github_milestones {lib}.
Arguments github_milestone {lib}.
Arguments slack_postMessage {lib}.

(* ================================================================= *)
(** ** The methods of [ProgressBot]

    Methods that never read [self] take no bot argument. *)

Definition nl : string := String "010"%char "".

(** *** Progress bar, status emoji, trend *)

Definition filled_char : string := "█".
Definition empty_char : string := "░".

Definition create_progress_bar (percentage : Q) (width : Z) : string :=
  let filled := Py.int_of_float (percentage / 100 * inject_Z width) in
  let empty := width - filled in
  Py.str_mul filled_char filled ++ Py.str_mul empty_char empty.

Definition get_status_emoji (percentage : Q) : string :=
  if Qle_bool 100 percentage then "✅"
  else if Qle_bool 75 percentage then "🟢"
  else if Qle_bool 50 percentage then "🟡"
  else if Qle_bool 25 percentage then "🟠"
  else "🔴".

Definition get_trend_indicator (current : Q) (previous : option Q) : string :=
  match previous with
  | None => "📊"
  | Some previous =>
      if negb (Qle_bool current previous) then "📈"
      else if negb (Qle_bool previous current) then "📉"
      else "➡️"
  end.

(** *** Discovery: the body of the loop over [enumerate(milestones)] *)

Definition emoji_map : list (Z * string) :=
  [(0, "🚀"); (1, "🔬"); (2, "📊"); (3, "🎯"); (4, "🏆"); (5, "⭐")].

Fixpoint emoji_map_get (m : list (Z * string)) (key : Z) (default : string) : string :=
  match m with
  | [] => default
  | (k, v) :: rest => if k =? key then v else emoji_map_get rest key default
  end.

Definition discover_one (self : Bot.t) (i : Z) (milestone : GH.t) : ProjectConfig.t :=
  let emoji := emoji_map_get emoji_map (i mod Z.of_nat (List.length emoji_map)) "📋" in
  let color :=
    if String.eqb (GH.state milestone) "closed" then "#28a745"
    else if GH.open_issues milestone =? 0 then "#ffc107"
    else "#007bff" in
  ProjectConfig.mk (GH.title milestone) (Bot.repo_owner self) (Bot.repo_name self)
    (GH.number milestone) emoji color.

Fixpoint discover_loop (self : Bot.t) (i : Z) (milestones : list GH.t)
    (discovered_milestones : list ProjectConfig.t) : list ProjectConfig.t :=
  match milestones with
  | [] => discovered_milestones
  | milestone :: rest =>
      discover_loop self (i + 1) rest
        (discovered_milestones ++ [discover_one self i milestone])%list
  end.

(** *** Summary figures (the three locals of [create_summary_blocks]) *)

Definition sum_int (xs : list Z) : Z := fold_left Z.add xs 0.

Definition total_milestones (milestones_data : list (ProjectConfig.t * option MD.t)) : Z :=
  Z.of_nat (List.length milestones_data).

(** [data and data['progress_percentage'] >= 100] *)
Definition is_completed (pd : ProjectConfig.t * option MD.t) : bool :=
  match snd pd with
  | Some data => Qle_bool 100 (MD.progress_percentage data)
  | None => false
  end.

(** [sum(1 for _, data in milestones_data
         if data and data['progress_percentage'] >= 100)] *)
Definition completed_milestones (milestones_data : list (ProjectConfig.t * option MD.t)) : Z :=
  sum_int (map (fun _ => 1) (filter is_completed milestones_data)).

(** [data['progress_percentage'] for _, data in milestones_data if data] *)
Fixpoint fetched_percentages (milestones_data : list (ProjectConfig.t * option MD.t)) : list Q :=
  match milestones_data with
  | [] => []
  | (_, Some data) :: rest => MD.progress_percentage data :: fetched_percentages rest
  | (_, None) :: rest => fetched_percentages rest
  end.

Definition avg_progress (milestones_data : list (ProjectConfig.t * option MD.t))
    : result Q :=
  if total_milestones milestones_data >? 0 then
    Py.truediv (Py.sum (fetched_percentages milestones_data))
      (inject_Z (total_milestones milestones_data))
  else Ok 0%Q.

(** *** Block literals *)

Definition plain_text (text : string) : pyval :=
  PDict [("type", PStr "plain_text"); ("text", PStr text); ("emoji", PBool true)].

Definition mrkdwn (text : string) : pyval :=
  PDict [("type", PStr "mrkdwn"); ("text", PStr text)].

Definition header (text : string) : pyval :=
  PDict [("type", PStr "header"); ("text", plain_text text)].

Definition divider : pyval := PDict [("type", PStr "divider")].

Definition error_block (milestone : ProjectConfig.t) : pyval :=
  PDict [("type", PStr "section");
         ("text", mrkdwn ("❌ *" ++ ProjectConfig.name milestone ++ "*" ++ nl
                            ++ "Failed to fetch milestone data"))].

Section ProgressBot.

Variable lib : DatetimeLib.
Variable outside : Outside lib.

(** [datetime.fromisoformat(s.replace('Z', '+00:00'))] *)
Definition parse_timestamp (s : string) : M (datetime lib) :=
  match fromisoformat lib (Py.replace_char "Z"%char "+00:00" s) with
  | Some d => ret d
  | None => raise (ValueError ("Invalid isoformat string: " ++ s))
  end.

Definition datetime_now : M (datetime lib) :=
  fun w =>
    (Ok (now outside (clock_reads w)),
     mk_world (stdout w) (sent w) (S (clock_reads w)) (milestones w)).

(** *** Discovery *)

(** [requests.get(url, headers=self.github_headers, params={'state': 'all'})] *)
Definition discovery_request (self : Bot.t) : request :=
  let url := "https://api.github.com/repos/" ++ Bot.repo_owner self ++ "/"
               ++ Bot.repo_name self ++ "/milestones" in
  mk_request "GET" url (Bot.github_headers self) [("state", "all")] None.

Definition discover_all_milestones (self : Bot.t) : M (list ProjectConfig.t) :=
  let rq := discovery_request self in
  try_except_RequestException
    (response <- send (github_milestones outside) rq ;;
     raise_for_status rq response ;;
     let milestones := json response in
     let discovered_milestones := discover_loop self 0 milestones [] in
     print ("🔍 Discovered "
              ++ Py.str_of_int (Z.of_nat (List.length discovered_milestones))
              ++ " milestones in " ++ Bot.repo_owner self ++ "/" ++ Bot.repo_name self) ;;
     ret discovered_milestones)
    (fun e =>
       print ("❌ Error discovering milestones: " ++ e) ;;
       ret []).

(** *** Fetch *)

(** [requests.get(url, headers=self.github_headers)] *)
Definition milestone_request (self : Bot.t) (project : ProjectConfig.t) : request :=
  let url := "https://api.github.com/repos/" ++ ProjectConfig.repo_owner project ++ "/"
               ++ ProjectConfig.repo_name project ++ "/milestones/"
               ++ Py.str_of_int (ProjectConfig.milestone_number project) in
  mk_request "GET" url (Bot.github_headers self) [] None.

Definition get_milestone_data (self : Bot.t) (project : ProjectConfig.t)
    : M (option MD.t) :=
  let rq := milestone_request self project in
  try_except_RequestException
    (response <- send (github_milestone outside) rq ;;
     raise_for_status rq response ;;
     let milestone := json response in
     let total_issues := GH.open_issues milestone + GH.closed_issues milestone in
     let closed_issues := GH.closed_issues milestone in
     progress_percentage <-
       (if total_issues >? 0
        then ratio <- lift (Py.truediv (inject_Z closed_issues) (inject_Z total_issues)) ;;
             ret (ratio * 100)%Q
        else ret 0%Q) ;;
     ret (Some (MD.mk (GH.title milestone) (GH.description milestone)
                  total_issues closed_issues (GH.open_issues milestone)
                  progress_percentage (GH.due_on milestone) (GH.html_url milestone)
                  (GH.created_at milestone) (GH.updated_at milestone)
                  (GH.state milestone))))
    (fun e =>
       print ("❌ Error fetching milestone data for " ++ ProjectConfig.name project
                ++ ": " ++ e) ;;
       ret None).

(** *** Formatting

    [if milestone_data.get(key):] holds for a string that is neither
    [None] nor empty. *)

Definition create_project_block (project : ProjectConfig.t) (milestone_data : MD.t)
    : M (list pyval) :=
  let progress_percentage := MD.progress_percentage milestone_data in
  let progress_bar := create_progress_bar progress_percentage 20 in
  let status_emoji := get_status_emoji progress_percentage in
  let header_block := header (ProjectConfig.name project) in
  let state_text :=
    if String.eqb (MD.state milestone_data) "closed" then "Closed" else "Open" in
  let progress_section :=
    PDict [("type", PStr "section");
           ("fields", PList [
              mrkdwn ("*Milestone:* <" ++ MD.html_url milestone_data ++ "|"
                        ++ MD.title milestone_data ++ ">");
              mrkdwn ("*Status:* " ++ Py.format_1f progress_percentage ++ "% Complete");
              mrkdwn ("*Progress:* " ++ Py.str_of_int (MD.closed_issues milestone_data)
                        ++ "/" ++ Py.str_of_int (MD.total_issues milestone_data)
                        ++ " issues");
              mrkdwn ("*State:* " ++ state_text)])] in
  let progress_bar_section :=
    PDict [("type", PStr "section");
           ("text", mrkdwn ("```" ++ progress_bar ++ "``` "
                              ++ Py.format_1f progress_percentage ++ "%"))] in
  let info_text := "" in
  let info_text :=
    match MD.description milestone_data with
    | Some (String a s) => info_text ++ "📝 *Description:* " ++ String a s ++ nl
    | _ => info_text
    end in
  info_text <-
    (match MD.due_date milestone_data with
     | Some (String a s) =>
         due_date <- parse_timestamp (String a s) ;;
         ret (info_text ++ "📅 *Due Date:* " ++ strftime lib due_date "%B %d, %Y" ++ nl)
     | _ => ret info_text
     end) ;;
  updated_at <- parse_timestamp (MD.updated_at milestone_data) ;;
  let info_text :=
    info_text ++ "*Last Updated:* " ++ strftime lib updated_at "%B %d, %Y at %I:%M %p" in
  let info_section := PDict [("type", PStr "section"); ("text", mrkdwn info_text)] in
  let actions_block :=
    PDict [("type", PStr "actions");
           ("elements", PList [
              PDict [("type", PStr "button");
                     ("text", plain_text "View Milestone");
                     ("url", PStr (MD.html_url milestone_data));
                     ("style", PStr "primary")];
              PDict [("type", PStr "button");
                     ("text", plain_text "View Issues");
                     ("url", PStr ("https://github.com/"
                                     ++ ProjectConfig.repo_owner project ++ "/"
                                     ++ ProjectConfig.repo_name project
                                     ++ "/issues?q=milestone%3A"
                                     ++ MD.title milestone_data))]])] in
  ret [header_block; progress_section; progress_bar_section; info_section;
       actions_block; divider].

Definition create_summary_blocks (milestones_data : list (ProjectConfig.t * option MD.t))
    : M (list pyval) :=
  let total_milestones := total_milestones milestones_data in
  let completed_milestones := completed_milestones milestones_data in
  avg_progress <- lift (avg_progress milestones_data) ;;
  let summary_header := header "Milestone Summary" in
  today <- datetime_now ;;
  let summary_section :=
    PDict [("type", PStr "section");
           ("fields", PList [
              mrkdwn ("*Total Milestones:* " ++ Py.str_of_int total_milestones);
              mrkdwn ("*Completed:* " ++ Py.str_of_int completed_milestones);
              mrkdwn ("*Average Progress:* " ++ Py.format_1f avg_progress ++ "%");
              mrkdwn ("*Report Date:* " ++ strftime lib today "%B %d, %Y")])] in
  ret [summary_header; summary_section; divider].

(** *** Delivery *)

(** [requests.post(url, headers=self.slack_headers, json=payload)] *)
Definition slack_request (self : Bot.t) (blocks : list pyval) : request :=
  let url := "https://slack.com/api/chat.postMessage" in
  let payload :=
    PDict [("channel", PStr (Bot.user_id self));
           ("blocks", PList blocks);
           ("text", PStr "Weekly Progress Report")] in
  mk_request "POST" url (Bot.slack_headers self) [] (Some payload).

Definition send_slack_message (self : Bot.t) (blocks : list pyval) : M bool :=
  let rq := slack_request self blocks in
  try_except_RequestException
    (response <- send (slack_postMessage outside) rq ;;
     raise_for_status rq response ;;
     let result := json response in
     if Slack.ok result then
       print "✅ Successfully sent progress report to Slack!" ;;
       ret true
     else
       print ("❌ Slack API error: "
                ++ match Slack.error result with
                   | Some e => e
                   | None => "Unknown error"
                   end) ;;
       ret false)
    (fun e =>
       print ("❌ Error sending Slack message: " ++ e) ;;
       ret false).

(** *** Orchestration *)

(** [for milestone in self.milestones: ... milestones_data.append(...)] *)
Fixpoint fetch_loop (self : Bot.t) (todo : list ProjectConfig.t)
    (milestones_data : list (ProjectConfig.t * option MD.t))
    : M (list (ProjectConfig.t * option MD.t)) :=
  match todo with
  | [] => ret milestones_data
  | milestone :: rest =>
      print ("📊 Fetching data for " ++ ProjectConfig.name milestone ++ "...") ;;
      milestone_data <- get_milestone_data self milestone ;;
      fetch_loop self rest (milestones_data ++ [(milestone, milestone_data)])%list
  end.

(** What one turn of the second loop appends to [all_blocks]. *)
Definition milestone_fragment (milestone : ProjectConfig.t)
    (milestone_data : option MD.t) : M (list pyval) :=
  match milestone_data with
  | Some data => create_project_block milestone data
  | None => ret [error_block milestone; divider]
  end.

(** [for milestone, milestone_data in milestones_data: all_blocks.extend(...)] *)
Fixpoint blocks_loop (todo : list (ProjectConfig.t * option MD.t))
    (all_blocks : list pyval) : M (list pyval) :=
  match todo with
  | [] => ret all_blocks
  | (milestone, milestone_data) :: rest =>
      fragment <- milestone_fragment milestone milestone_data ;;
      blocks_loop rest (all_blocks ++ fragment)%list
  end.

(** [if all_blocks and all_blocks[-1].get("type") == "divider": all_blocks.pop()] *)
Definition remove_last_divider (all_blocks : list pyval) : list pyval :=
  match rev all_blocks with
  | last_block :: _ =>
      if get_is "type" "divider" last_block then removelast all_blocks else all_blocks
  | [] => all_blocks
  end.

Definition is_fetched (pd : ProjectConfig.t * option MD.t) : bool :=
  match snd pd with
  | Some _ => true
  | None => false
  end.

Definition generate_weekly_report (self : Bot.t) : M unit :=
  print "🚀 Generating weekly progress report..." ;;
  print "🔍 Auto-discovering milestones..." ;;
  discovered <- discover_all_milestones self ;;
  set_milestones discovered ;;
  self_milestones <- get_milestones ;;
  match self_milestones with
  | [] => print "❌ No milestones found in the repository"
  | _ :: _ =>
      milestones_data <- fetch_loop self self_milestones [] ;;
      let all_blocks : list pyval := [] in
      let project_header :=
        header ("🚀 " ++ Bot.repo_owner self ++ "/" ++ Bot.repo_name self
                  ++ " - Weekly Progress") in
      let all_blocks := (all_blocks ++ [project_header])%list in
      summary <- create_summary_blocks milestones_data ;;
      let all_blocks := (all_blocks ++ summary)%list in
      all_blocks <- blocks_loop milestones_data all_blocks ;;
      let all_blocks := remove_last_divider all_blocks in
      generated <- datetime_now ;;
      let footer_block :=
        PDict [("type", PStr "context");
               ("elements", PList [
                  mrkdwn ("📅 Generated on "
                            ++ strftime lib generated "%B %d, %Y at %I:%M %p"
                            ++ " | 🤖 Progress Bot")])] in
      let all_blocks := (all_blocks ++ [footer_block])%list in
      success <- send_slack_message self all_blocks ;;
      if (success : bool) then
        print ("📈 Report sent! Tracked "
                 ++ Py.str_of_int (Z.of_nat (List.length (filter is_fetched milestones_data)))
                 ++ " milestones successfully.")
      else
        print "❌ Failed to send report."
  end.

Definition run_test (self : Bot.t) : M unit :=
  print "🧪 Running test report..." ;;
  generate_weekly_report self.

End ProgressBot.

(* ================================================================= *)
(** ** Manual registration and the entry point *)

Section EntryPoint.

Variable lib : DatetimeLib.
Variable outside : Outside lib.

(** [add_milestone(name, milestone_number, emoji, color)]; the caller
    passes ["📊"] and ["#36a64f"] for the two defaults. *)
Definition add_milestone (self : Bot.t) (name : string) (milestone_number : Z)
    (emoji color : string) : M unit :=
  let milestone :=
    ProjectConfig.mk name (Bot.repo_owner self) (Bot.repo_name self)
      milestone_number emoji color in
  registered <- get_milestones ;;
  set_milestones (registered ++ [milestone])%list ;;
  print ("✅ Added milestone: " ++ name).

(** [len(sys.argv) > 1 and sys.argv[1] == "--test"] *)
Definition is_test_run (argv : list string) : bool :=
  match argv with
  | _ :: arg :: _ => String.eqb arg "--test"
  | _ => false
  end.

(** [main()], given what [os.getenv] answers and [sys.argv].  [if not x]
    holds for [None] and for the empty string.  The bot is built by
    [__init__], which also sets [self.milestones = []]. *)
Definition main (getenv : string -> option string) (argv : list string) : M unit :=
  let BOT_TOKEN := getenv "SLACK_BOT_TOKEN" in
  let SLACK_USER_ID := getenv "SLACK_USER_ID" in
  let github_token := getenv "GITHUB_TOKEN" in
  match github_token with
  | Some (String g0 g) =>
      match BOT_TOKEN with
      | Some (String b0 b) =>
          match SLACK_USER_ID with
          | Some (String u0 u) =>
              let bot := Bot.init (String b0 b) (String g0 g) (String u0 u) in
              set_milestones [] ;;
              if is_test_run argv then run_test lib outside bot
              else generate_weekly_report lib outside bot
          | _ =>
              print "❌ Missing SLACK_USER_ID environment variable" ;;
              print "Please set: export SLACK_USER_ID='your_SLACK_USER_ID_here'"
          end
      | _ =>
          print "❌ Missing SLACK_BOT_TOKEN environment variable" ;;
          print "Please set: export SLACK_BOT_TOKEN='your_slack_bot_token_here'"
      end
  | _ =>
      print "❌ Missing GITHUB_TOKEN environment variable" ;;
      print "Please set: export GITHUB_TOKEN='your_github_token_here'"
  end.

End EntryPoint.

(** The world with its printed lines replaced. *)
Definition with_stdout (out : list string) (w : World) : World :=
  mk_world out (sent w) (clock_reads w) (milestones w).

(** [block.get("type")] of each block of a document. *)
Definition block_types (blocks : list pyval) : list (option pyval) :=
  map (dict_get "type") blocks.

(** The values of [emoji_map], in the order of its keys. *)
Definition palette : list string := ["🚀"; "🔬"; "📊"; "🎯"; "🏆"; "⭐"].

(** [not x] for what [os.getenv] returns. *)
Definition missing (x : option string) : bool :=
  match x with
  | Some (String _ _) => false
  | _ => true
  end.

(** The timestamps [create_project_block] formats are ones the datetime
    library reads: the due date, when there is one, and the update time. *)
Definition timestamps_parse (lib : DatetimeLib) (milestone_data : MD.t) : bool :=
  match MD.due_date milestone_data with
  | Some (String a s) =>
      match fromisoformat lib (Py.replace_char "Z" "+00:00" (String a s)) with
      | Some _ => true
      | None => false
      end
  | _ => true
  end
  && match fromisoformat lib (Py.replace_char "Z" "+00:00" (MD.updated_at milestone_data)) with
     | Some _ => true
     | None => false
     end.

(** A computation that only appends to the printed lines and never reads
    them: run with other lines printed before, it does the same and prints
    the same. *)
Definition stdout_framed {A : Type} (m : M A) : Prop :=
  forall w, exists r printed w',
    forall out, m (with_stdout out w) = (r, with_stdout (out ++ printed)%list w').

(** The world with [self.milestones] replaced. *)
Definition with_milestones (ms : list ProjectConfig.t) (w : World) : World :=
  mk_world (stdout w) (sent w) (clock_reads w) ms.

(** The six block types of one group's fragment. *)
Definition project_block_types : list (option pyval) :=
  [Some (PStr "header"); Some (PStr "section"); Some (PStr "section");
   Some (PStr "section"); Some (PStr "actions"); Some (PStr "divider")].

(* ================================================================= *)
(** ** A concrete outside, to run the bot on

    [Sample.lib] reads the timestamps GitHub sends
    ([YYYY-MM-DDTHH:MM:SS+00:00] once [Z] is replaced) and prints the
    directives the bot uses. *)

Module Sample.

Record dt : Type := mk_dt { year : Z; month : Z; day : Z; hour : Z; minute : Z }.

Definition digit (a : ascii) : option Z :=
  let n := Z.of_nat (nat_of_ascii a) - 48 in
  if (0 <=? n) && (n <=? 9) then Some n else None.

Fixpoint number (s : string) (acc : Z) : option Z :=
  match s with
  | EmptyString => Some acc
  | String a rest =>
      match digit a with
      | Some d => number rest (10 * acc + d)
      | None => None
      end
  end.

Definition field (s : string) (start len : nat) : option Z :=
  number (substring start len s) 0.

Definition fromisoformat (s : string) : option dt :=
  if (String.length s =? 25)%nat
     && String.eqb (substring 4 1 s) "-" && String.eqb (substring 7 1 s) "-"
     && String.eqb (substring 10 1 s) "T" && String.eqb (substring 13 1 s) ":"
     && String.eqb (substring 16 1 s) ":" && String.eqb (substring 19 6 s) "+00:00"
  then
    match field s 0 4, field s 5 2, field s 8 2, field s 11 2, field s 14 2, field s 17 2 with
    | Some y, Some mo, Some d, Some h, Some mi, Some _ =>
        if (1 <=? mo) && (mo <=? 12) && (1 <=? d) && (d <=? 31) && (h <=? 23) && (mi <=? 59)
        then Some (mk_dt y mo d h mi)
        else None
    | _, _, _, _, _, _ => None
    end
  else None.

Definition month_name (m : Z) : string :=
  nth (Z.to_nat (m - 1))
    ["January"; "February"; "March"; "April"; "May"; "June"; "July"; "August";
     "September"; "October"; "November"; "December"] "".

Definition two_digits (n : Z) : string :=
  if n <? 10 then "0" ++ Py.str_of_int n else Py.str_of_int n.

Definition directive (d : dt) (c : ascii) : string :=
  if Ascii.eqb c "B" then month_name (month d)
  else if Ascii.eqb c "d" then two_digits (day d)
  else if Ascii.eqb c "Y" then Py.str_of_int (year d)
  else if Ascii.eqb c "I" then two_digits (if hour d mod 12 =? 0 then 12 else hour d mod 12)
  else if Ascii.eqb c "M" then two_digits (minute d)
  else if Ascii.eqb c "p" then (if hour d <? 12 then "AM" else "PM")
  else String "%" (String c "").

Fixpoint strftime (d : dt) (fmt : string) : string :=
  match fmt with
  | String "%" (String c rest) => directive d c ++ strftime d rest
  | String a rest => String a (strftime d rest)
  | EmptyString => EmptyString
  end.

Definition lib : DatetimeLib := mk_lib dt fromisoformat strftime.

Definition bot : Bot.t := Bot.init "xoxb-token" "ghp-token" "U123".

Definition gh (title : string) (number : Z) (state : string) (open closed : Z) : GH.t :=
  GH.mk title number state open closed (Some "Ship it") (Some "2025-03-01T08:00:00Z")
    ("https://github.com/leyangloh/FakeProgress/milestone/" ++ Py.str_of_int number)
    "2025-01-05T09:30:00Z" "2025-02-10T17:45:00Z".

Definition alpha : GH.t := gh "Alpha" 1 "open" 1 3.
Definition beta : GH.t := gh "Beta" 2 "open" 0 0.
Definition gamma : GH.t := gh "Gamma" 3 "closed" 0 5.

Definition ok_response {A : Type} (body : A) : outcome A :=
  Responded (mk_response 200 "OK" body).

(** GitHub lists three milestones; the second one cannot be fetched. *)
Definition one_milestone (k : nat) (rq : request) : outcome GH.t :=
  if String.eqb (url rq) "https://api.github.com/repos/leyangloh/FakeProgress/milestones/1"
  then ok_response alpha
  else if String.eqb (url rq) "https://api.github.com/repos/leyangloh/FakeProgress/milestones/3"
  then ok_response gamma
  else Responded (mk_response 404 "Not Found" beta).

Definition clock (k : nat) : dt := mk_dt 2025 2 14 (9 + Z.of_nat k) 5.

(** Slack refuses the message. *)
Definition refusing : Outside lib :=
  mk_outside lib clock
    (fun _ _ => ok_response [alpha; beta; gamma])
    one_milestone
    (fun _ _ => ok_response (Slack.mk false (Some "channel_not_found"))).

(** Slack accepts the message. *)
Definition accepting : Outside lib :=
  mk_outside lib clock
    (fun _ _ => ok_response [alpha; beta; gamma])
    one_milestone
    (fun _ _ => ok_response (Slack.mk true None)).

(** GitHub is unreachable. *)
Definition offline : Outside lib :=
  mk_outside lib clock
    (fun _ _ => ConnectionFailed "Connection refused")
    (fun _ _ => ConnectionFailed "Connection refused")
    (fun _ _ => ConnectionFailed "Connection refused").

Definition w0 : World := mk_world [] [] 0 [].

Definition config (name : string) (number : Z) : ProjectConfig.t :=
  ProjectConfig.mk name "leyangloh" "FakeProgress" number "📊" "#36a64f".

Definition snapshot (closed total : Z) (percentage : Q) : MD.t :=
  MD.mk "M" None total closed (total - closed) percentage None
    "https://github.com/leyangloh/FakeProgress/milestone/1"
    "2025-01-05T09:30:00Z" "2025-02-10T17:45:00Z" "open".

(** Three groups, the fetch of the second one failed. *)
Definition one_failed : list (ProjectConfig.t * option MD.t) :=
  [(config "A" 1, Some (snapshot 1 2 50)); (config "B" 2, None);
   (config "C" 3, Some (snapshot 4 4 100))].

End Sample.

(* ================================================================= *)
(** ** Sample environments and a delivered run *)

Module SampleEnv.

(** All three credentials are set. *)
Definition complete (key : string) : option string :=
  if String.eqb key "GITHUB_TOKEN" then Some "ghp-token"
  else if String.eqb key "SLACK_BOT_TOKEN" then Some "xoxb-token"
  else if String.eqb key "SLACK_USER_ID" then Some "U123"
  else None.

(** The Slack token is set to the empty string. *)
Definition no_slack_token (key : string) : option string :=
  if String.eqb key "GITHUB_TOKEN" then Some "ghp-token"
  else if String.eqb key "SLACK_BOT_TOKEN" then Some ""
  else if String.eqb key "SLACK_USER_ID" then Some "U123"
  else None.

Definition delivered_run : result unit * World :=
  generate_weekly_report Sample.lib Sample.accepting Sample.bot Sample.w0.

Definition delivered_before : list request := removelast (sent (snd delivered_run)).

(** The [blocks] of the payload of the last request of the run. *)
Definition delivered_blocks : list pyval :=
  match json_payload (last (sent (snd delivered_run))
                        (mk_request "" "" [] [] None)) with
  | Some payload =>
      match dict_get "blocks" payload with
      | Some (PList blocks) => blocks
      | _ => []
      end
  | None => []
  end.

End SampleEnv.

(* ================================================================= *)
(** ** Vocabulary for the statements about a run *)

(** The exception text a request ends in, if it fails: no response at
    all, or a response whose status [raise_for_status] rejects. *)
Definition request_error {A : Type} (rq : request) (o : outcome A) : option string :=
  match o with
  | ConnectionFailed msg => Some msg
  | Responded r => if is_http_error r then Some (http_error_msg rq r) else None
  end.

(** The delivery did not go through: the request failed, or Slack
    acknowledged it with [ok = false]. *)
Definition delivery_refused (rq : request) (o : outcome Slack.result) : bool :=
  match request_error rq o, o with
  | Some _, _ => true
  | None, Responded r => negb (Slack.ok (json r))
  | None, ConnectionFailed _ => true
  end.

(** The world once request [rq] is sent and [line] is printed. *)
Definition after_delivery (w : World) (rq : request) (line : string) : World :=
  mk_world (stdout w ++ [line])%list (sent w ++ [rq])%list (clock_reads w) (milestones w).

(** The POST requests among the requests issued. *)
Definition posts (l : list request) : list request :=
  filter (fun rq => String.eqb (method rq) "POST") l.

(* ================================================================= *)
(** ** The summary as the specification words it

    The specification's average is the mean over the groups whose fetch
    succeeded, and its total counts only those groups.  These two definitions
    follow its words; they are compared with the code's [avg_progress] and
    [total_milestones] below. *)



(* ================================================================= *)
(** ** The progress bar *)

Section ProgressBar.

Lemma int_of_float_floor (x : Q) : (0 <= x)%Q -> Py.int_of_float x = Qfloor x.
Proof.
  destruct x as [n d]. unfold Qle, Py.int_of_float. simpl. intros H.
  apply Z.quot_div_nonneg; lia.
Qed.

Lemma string_app_assoc (a b c : string) : (a ++ b) ++ c = a ++ (b ++ c).
Proof.
  induction a as [|x a IH]; simpl; [reflexivity | now rewrite IH].
Qed.

Lemma string_app_nil_r (a : string) : a ++ "" = a.
Proof.
  induction a as [|x a IH]; simpl; [reflexivity | now rewrite IH].
Qed.

Lemma str_repeat_app (s : string) (n m : nat) :
  Py.str_repeat s (n + m) = Py.str_repeat s n ++ Py.str_repeat s m.
Proof.
  induction n as [|n IH]; simpl.
  - reflexivity.
  - rewrite IH. now rewrite string_app_assoc.
Qed.

Lemma prefix_empty (s : string) : String.prefix "" s = true.
Proof. destruct s; reflexivity. Qed.

Lemma count_filled_in_filled (n : nat) (rest : string) :
  Py.count filled_char (Py.str_repeat filled_char n ++ rest)
  = (n + Py.count filled_char rest)%nat.
Proof.
  induction n as [|n IH]; [reflexivity|].
  cbn [Py.str_repeat]. rewrite string_app_assoc.
  unfold filled_char at 2. cbn [String.append].
  cbn [Py.count]. rewrite IH. simpl. rewrite ?prefix_empty. reflexivity.
Qed.

Lemma count_filled_in_empty (n : nat) :
  Py.count filled_char (Py.str_repeat empty_char n) = 0%nat.
Proof.
  induction n as [|n IH]; [reflexivity|].
  cbn [Py.str_repeat]. unfold empty_char at 1. cbn [String.append].
  cbn [Py.count]. rewrite IH. simpl. rewrite ?prefix_empty. reflexivity.
Qed.

Lemma count_empty_in_filled (n : nat) (rest : string) :
  Py.count empty_char (Py.str_repeat filled_char n ++ rest)
  = Py.count empty_char rest.
Proof.
  induction n as [|n IH]; [reflexivity|].
  cbn [Py.str_repeat]. rewrite string_app_assoc.
  unfold filled_char at 1. cbn [String.append].
  cbn [Py.count]. rewrite IH. simpl. rewrite ?prefix_empty. reflexivity.
Qed.

Lemma count_empty_in_empty (n : nat) :
  Py.count empty_char (Py.str_repeat empty_char n) = n.
Proof.
  induction n as [|n IH]; [reflexivity|].
  cbn [Py.str_repeat]. unfold empty_char at 2. cbn [String.append].
  cbn [Py.count]. rewrite IH. simpl. rewrite ?prefix_empty. reflexivity.
Qed.



Lemma scaled_bounds (percentage : Q) (width : Z) :
  (0 <= percentage <= 100)%Q -> 0 < width ->
  (0 <= percentage / 100 * inject_Z width <= inject_Z width)%Q.
Proof.
  intros [Hlo Hhi] Hw.
  change (percentage / 100)%Q with (percentage * (1 # 100))%Q.
  assert (H0 : (0 <= percentage * (1 # 100))%Q) by lra.
  assert (H1 : (percentage * (1 # 100) <= 1)%Q) by lra.
  assert (HW : (0 <= inject_Z width)%Q).
  { unfold Qle. simpl. lia. }
  split.
  - now apply Qmult_le_0_compat.
  - setoid_replace (inject_Z width) with (1 * inject_Z width)%Q at 2 by ring.
    now apply Qmult_le_compat_r.
Qed.


(** The spec's example: width 20 at 37.5 percent. *)
Example create_progress_bar_37_5 :
  create_progress_bar 37.5 20 = "███████░░░░░░░░░░░░░"
  /\ Py.count filled_char (create_progress_bar 37.5 20) = 7%nat
  /\ Py.count empty_char (create_progress_bar 37.5 20) = 13%nat.
Proof. repeat split; vm_compute; reflexivity. Qed.

End ProgressBar.

(* ================================================================= *)
(** ** The status emoji *)

Section StatusEmoji.

Lemma Qle_bool_false (x y : Q) : Qle_bool x y = false -> (y < x)%Q.
Proof.
  intros H. apply Qnot_le_lt. intros Hle.
  apply Qle_bool_iff in Hle. congruence.
Qed.

(** C4.  The emoji is a step function of the percentage: one of five
    values, chosen by the thresholds 100, 75, 50 and 25, each threshold
    belonging to the higher step and one unit below it to the step
    beneath. *)
Theorem get_status_emoji_steps :
  (forall percentage : Q,
      ((100 <= percentage)%Q /\ get_status_emoji percentage = "✅")
      \/ ((75 <= percentage < 100)%Q /\ get_status_emoji percentage = "🟢")
      \/ ((50 <= percentage < 75)%Q /\ get_status_emoji percentage = "🟡")
      \/ ((25 <= percentage < 50)%Q /\ get_status_emoji percentage = "🟠")
      \/ ((percentage < 25)%Q /\ get_status_emoji percentage = "🔴"))
  /\ get_status_emoji 100 = "✅" /\ get_status_emoji 99 = "🟢"
  /\ get_status_emoji 75 = "🟢" /\ get_status_emoji 74 = "🟡"
  /\ get_status_emoji 50 = "🟡" /\ get_status_emoji 49 = "🟠"
  /\ get_status_emoji 25 = "🟠" /\ get_status_emoji 24 = "🔴".
Proof.
  split; [|repeat split].
  intros percentage. unfold get_status_emoji.
  destruct (Qle_bool 100 percentage) eqn:H100.
  { left. split; [now apply Qle_bool_iff | reflexivity]. }
  apply Qle_bool_false in H100.
  destruct (Qle_bool 75 percentage) eqn:H75.
  { right; left. apply Qle_bool_iff in H75. auto. }
  apply Qle_bool_false in H75.
  destruct (Qle_bool 50 percentage) eqn:H50.
  { right; right; left. apply Qle_bool_iff in H50. auto. }
  apply Qle_bool_false in H50.
  destruct (Qle_bool 25 percentage) eqn:H25.
  { right; right; right; left. apply Qle_bool_iff in H25. auto. }
  apply Qle_bool_false in H25.
  right; right; right; right. auto.
Qed.


End StatusEmoji.

(* ================================================================= *)
(** ** The summary *)

Section Summary.

Variable lib : DatetimeLib.
Variable outside : Outside lib.

Lemma sum_int_ones {A : Type} (l : list A) (acc : Z) :
  fold_left Z.add (map (fun _ => 1) l) acc = acc + Z.of_nat (List.length l).
Proof.
  revert acc. induction l as [|x l IH]; intros acc; simpl fold_left.
  - simpl. lia.
  - rewrite IH. simpl List.length. lia.
Qed.

Lemma completed_milestones_count milestones_data :
  completed_milestones milestones_data
  = Z.of_nat (List.length (filter is_completed milestones_data)).
Proof.
  unfold completed_milestones, sum_int. now rewrite sum_int_ones.
Qed.

Lemma inject_Z_nonzero (z : Z) : 0 < z -> Qeq_bool (inject_Z z) 0 = false.
Proof.
  intros H. destruct (Qeq_bool (inject_Z z) 0) eqn:E; [|reflexivity].
  apply Qeq_bool_iff in E. unfold Qeq in E. simpl in E. lia.
Qed.

(** The division of [avg_progress] never meets a zero divisor. *)
Lemma avg_progress_ok milestones_data :
  avg_progress milestones_data
  = Ok (if total_milestones milestones_data >? 0
        then (Py.sum (fetched_percentages milestones_data)
                / inject_Z (total_milestones milestones_data))%Q
        else 0%Q).
Proof.
  unfold avg_progress, Py.truediv.
  destruct (total_milestones milestones_data >? 0) eqn:E; [|reflexivity].
  rewrite inject_Z_nonzero; [reflexivity | lia].
Qed.


(** What the builder returns, in terms of its three figures. *)
Lemma create_summary_blocks_eq milestones_data (avg : Q) (w : World) :
  avg_progress milestones_data = Ok avg ->
  create_summary_blocks lib outside milestones_data w
  = (Ok [header "Milestone Summary";
         PDict [("type", PStr "section");
                ("fields", PList [
                   mrkdwn ("*Total Milestones:* "
                             ++ Py.str_of_int (total_milestones milestones_data));
                   mrkdwn ("*Completed:* "
                             ++ Py.str_of_int (completed_milestones milestones_data));
                   mrkdwn ("*Average Progress:* " ++ Py.format_1f avg ++ "%");
                   mrkdwn ("*Report Date:* "
                             ++ strftime lib (now outside (clock_reads w)) "%B %d, %Y")])];
         divider],
     mk_world (stdout w) (sent w) (S (clock_reads w)) (milestones w)).
Proof.
  intros Havg. unfold create_summary_blocks, bind, lift, datetime_now, ret.
  rewrite Havg. reflexivity.
Qed.



(** Without its guard the average of an empty list would raise. *)
Remark unguarded_average_raises :
  Py.truediv (Py.sum (fetched_percentages [])) (inject_Z (total_milestones []))
  = Raise ZeroDivisionError.
Proof. reflexivity. Qed.

(** C10.  The summary builder never raises; on the empty list the guard
    on the count makes the average 0, and the summary reports total 0,
    completed 0 and average 0.0. *)
Theorem create_summary_blocks_total :
  (forall milestones_data w, exists blocks w',
      create_summary_blocks lib outside milestones_data w = (Ok blocks, w'))
  /\ total_milestones [] = 0
  /\ completed_milestones [] = 0
  /\ avg_progress [] = Ok 0%Q
  /\ (forall w,
         create_summary_blocks lib outside [] w
         = (Ok [header "Milestone Summary";
                PDict [("type", PStr "section");
                       ("fields", PList [
                          mrkdwn "*Total Milestones:* 0";
                          mrkdwn "*Completed:* 0";
                          mrkdwn "*Average Progress:* 0.0%";
                          mrkdwn ("*Report Date:* "
                                    ++ strftime lib (now outside (clock_reads w))
                                         "%B %d, %Y")])];
                divider],
            mk_world (stdout w) (sent w) (S (clock_reads w)) (milestones w))).
Proof.
  split.
  { intros milestones_data w. do 2 eexists.
    apply create_summary_blocks_eq, avg_progress_ok. }
  split; [reflexivity|]. split; [reflexivity|]. split; [reflexivity|].
  intros w. rewrite (create_summary_blocks_eq [] 0%Q w) by reflexivity.
  reflexivity.
Qed.

End Summary.


(* ================================================================= *)
(** ** Fetching one milestone *)

Section Fetch.

Variable lib : DatetimeLib.
Variable outside : Outside lib.

Lemma get_milestone_data_fails (self : Bot.t) (project : ProjectConfig.t)
    (w : World) (e : string) :
  request_error (milestone_request self project)
    (github_milestone outside (List.length (sent w)) (milestone_request self project))
  = Some e ->
  get_milestone_data lib outside self project w
  = (Ok None,
     mk_world
       (stdout w ++ [("❌ Error fetching milestone data for "
                        ++ ProjectConfig.name project ++ ": " ++ e)%string])%list
       (sent w ++ [milestone_request self project])%list
       (clock_reads w) (milestones w)).
Proof.
  unfold request_error, get_milestone_data, try_except_RequestException, bind, send.
  destruct (github_milestone outside _ _) as [msg|r]; simpl.
  - intros [= <-]. reflexivity.
  - unfold raise_for_status. destruct (is_http_error r); [|discriminate].
    intros [= <-]. reflexivity.
Qed.

Lemma get_milestone_data_succeeds (self : Bot.t) (project : ProjectConfig.t)
    (w : World) (r : response GH.t) :
  github_milestone outside (List.length (sent w)) (milestone_request self project)
  = Responded r ->
  is_http_error r = false ->
  let milestone := json r in
  let total := GH.open_issues milestone + GH.closed_issues milestone in
  get_milestone_data lib outside self project w
  = (Ok (Some (MD.mk (GH.title milestone) (GH.description milestone)
                 total (GH.closed_issues milestone) (GH.open_issues milestone)
                 (if total >? 0
                  then (inject_Z (GH.closed_issues milestone) / inject_Z total * 100)%Q
                  else 0%Q)
                 (GH.due_on milestone) (GH.html_url milestone)
                 (GH.created_at milestone) (GH.updated_at milestone)
                 (GH.state milestone))),
     mk_world (stdout w) (sent w ++ [milestone_request self project])%list
       (clock_reads w) (milestones w)).
Proof.
  intros Hr Hok milestone total.
  unfold get_milestone_data, try_except_RequestException, bind, send.
  rewrite Hr. unfold raise_for_status. rewrite Hok. simpl.
  fold milestone. fold total.
  destruct (total >? 0) eqn:Ht; [|reflexivity].
  unfold lift, Py.truediv. rewrite inject_Z_nonzero by lia. reflexivity.
Qed.


(** The fetch never raises: a failed request is caught, and the division
    is guarded. *)
Lemma get_milestone_data_returns (self : Bot.t) (project : ProjectConfig.t) (w : World) :
  exists data printed,
    get_milestone_data lib outside self project w
    = (Ok data,
       mk_world (stdout w ++ printed)%list
         (sent w ++ [milestone_request self project])%list
         (clock_reads w) (milestones w)).
Proof.
  destruct (request_error (milestone_request self project)
              (github_milestone outside (List.length (sent w))
                 (milestone_request self project))) as [e|] eqn:He.
  - do 2 eexists. exact (get_milestone_data_fails self project w e He).
  - unfold request_error in He.
    destruct (github_milestone outside _ _) as [msg|r] eqn:Hr; [discriminate|].
    destruct (is_http_error r) eqn:Hok; [discriminate|].
    eexists. exists []. rewrite app_nil_r.
    exact (get_milestone_data_succeeds self project w r Hr Hok).
Qed.

End Fetch.

(* ================================================================= *)
(** ** The run *)

Section Run.

Variable lib : DatetimeLib.
Variable outside : Outside lib.

Lemma world_eta (w : World) :
  mk_world (stdout w) (sent w) (clock_reads w) (milestones w) = w.
Proof. destruct w; reflexivity. Qed.

(** The first loop fetches every group in turn, whatever the earlier
    fetches gave, and never raises. *)
Lemma fetch_loop_visits_all (self : Bot.t) (todo : list ProjectConfig.t) :
  forall acc w, exists fetched printed,
    fetch_loop lib outside self todo acc w
    = (Ok (acc ++ combine todo fetched)%list,
       mk_world (stdout w ++ printed)%list
         (sent w ++ map (milestone_request self) todo)%list
         (clock_reads w) (milestones w))
    /\ List.length fetched = List.length todo.
Proof.
  induction todo as [|milestone rest IH]; intros acc w.
  - exists [], []. simpl. rewrite !app_nil_r, world_eta. now split.
  - cbn [fetch_loop]. unfold bind at 1. unfold print at 1.
    set (w1 := mk_world _ _ _ _).
    destruct (get_milestone_data_returns lib outside self milestone w1)
      as (data & printed & Hget).
    unfold bind. rewrite Hget.
    set (w2 := mk_world _ _ _ _).
    destruct (IH (acc ++ [(milestone, data)])%list w2)
      as (fetched & printed' & Hloop & Hlen).
    rewrite Hloop.
    exists (data :: fetched). eexists (_ :: printed ++ printed')%list.
    split; [|simpl; now rewrite Hlen].
    subst w1 w2. cbn [stdout sent clock_reads milestones combine map].
    rewrite <- !app_assoc. reflexivity.
Qed.

Lemma bind_ok {A B : Type} (m : M A) (k : A -> M B) (w w' : World) (a : A) :
  m w = (Ok a, w') -> bind m k w = k a w'.
Proof. unfold bind. now intros ->. Qed.

Lemma bind_raise {A B : Type} (m : M A) (k : A -> M B) (w w' : World) (e : exn) :
  m w = (Raise e, w') -> bind m k w = (Raise e, w').
Proof. unfold bind. now intros ->. Qed.

(** *** Discovery *)

Lemma discover_loop_acc (self : Bot.t) (ms : list GH.t) :
  forall i acc,
    discover_loop self i ms acc = (acc ++ discover_loop self i ms [])%list.
Proof.
  induction ms as [|m rest IH]; intros i acc; cbn [discover_loop].
  - now rewrite app_nil_r.
  - rewrite (IH (i + 1) (acc ++ _)%list), (IH (i + 1) ([] ++ _)%list).
    now rewrite <- app_assoc.
Qed.

Lemma discover_loop_cons (self : Bot.t) (i : Z) (m : GH.t) (rest : list GH.t) :
  discover_loop self i (m :: rest) []
  = discover_one self i m :: discover_loop self (i + 1) rest [].
Proof. cbn [discover_loop]. now rewrite discover_loop_acc. Qed.

Lemma discover_loop_length (self : Bot.t) (ms : list GH.t) :
  forall i, List.length (discover_loop self i ms []) = List.length ms.
Proof.
  induction ms as [|m rest IH]; intros i; [reflexivity|].
  rewrite discover_loop_cons. simpl. now rewrite IH.
Qed.

Lemma discover_loop_nth (self : Bot.t) (ms : list GH.t) :
  forall i k m,
    nth_error ms k = Some m ->
    nth_error (discover_loop self i ms []) k
    = Some (discover_one self (i + Z.of_nat k) m).
Proof.
  induction ms as [|m0 rest IH]; intros i k m Hk.
  - destruct k; discriminate.
  - rewrite discover_loop_cons. destruct k as [|k]; simpl in Hk |- *.
    + injection Hk as ->. now rewrite Z.add_0_r.
    + rewrite (IH (i + 1) k m Hk). do 2 f_equal. lia.
Qed.

(** Discovery never raises, sends one request and prints one line; what
    it returns depends on the world only through the number of requests
    sent before. *)
Lemma discover_all_milestones_returns (self : Bot.t) (n : nat) :
  exists discovered line,
    (forall w, List.length (sent w) = n ->
        discover_all_milestones lib outside self w
        = (Ok discovered,
           mk_world (stdout w ++ [line])%list
             (sent w ++ [discovery_request self])%list
             (clock_reads w) (milestones w)))
    /\ (forall e,
           request_error (discovery_request self)
             (github_milestones outside n (discovery_request self)) = Some e ->
           discovered = [])
    /\ (forall r,
           github_milestones outside n (discovery_request self) = Responded r ->
           is_http_error r = false ->
           discovered = discover_loop self 0 (json r) []).
Proof.
  unfold discover_all_milestones, try_except_RequestException, bind, send,
    request_error.
  destruct (github_milestones outside n (discovery_request self)) as [msg|r] eqn:Ho.
  - exists [], ("❌ Error discovering milestones: " ++ msg). split; [|split].
    + intros w <-. rewrite Ho. reflexivity.
    + reflexivity.
    + discriminate.
  - unfold raise_for_status. destruct (is_http_error r) eqn:Herr.
    + exists [], ("❌ Error discovering milestones: "
                   ++ http_error_msg (discovery_request self) r).
      split; [|split].
      * intros w <-. rewrite Ho, Herr. reflexivity.
      * reflexivity.
      * intros r' [= <-] H. congruence.
    + eexists (discover_loop self 0 (json r) []), _. split; [|split].
      * intros w <-. rewrite Ho, Herr. reflexivity.
      * discriminate.
      * intros r' [= <-] _. reflexivity.
Qed.

(** C7.  Each group that discovery returns takes its colour from its
    milestone by the three-way rule: [#28a745] when the state is
    ["closed"]; failing that, [#ffc107] when no issue is open; failing
    that, [#007bff]. *)
Theorem discovered_color_rule (self : Bot.t) (w : World) (r : response (list GH.t)) :
  github_milestones outside (List.length (sent w)) (discovery_request self)
  = Responded r ->
  is_http_error r = false ->
  exists discovered w',
    discover_all_milestones lib outside self w = (Ok discovered, w')
    /\ List.length discovered = List.length (json r)
    /\ forall k milestone,
        nth_error (json r) k = Some milestone ->
        exists config,
          nth_error discovered k = Some config
          /\ ProjectConfig.name config = GH.title milestone
          /\ ProjectConfig.milestone_number config = GH.number milestone
          /\ (GH.state milestone = "closed" ->
              ProjectConfig.color config = "#28a745")
          /\ (GH.state milestone <> "closed" -> GH.open_issues milestone = 0 ->
              ProjectConfig.color config = "#ffc107")
          /\ (GH.state milestone <> "closed" -> GH.open_issues milestone <> 0 ->
              ProjectConfig.color config = "#007bff").
Proof.
  intros Ho Herr.
  destruct (discover_all_milestones_returns self (List.length (sent w)))
    as (discovered & line & Hrun & _ & Hok).
  rewrite (Hok r Ho Herr) in Hrun.
  do 2 eexists. split; [exact (Hrun w eq_refl)|].
  split; [apply discover_loop_length|].
  intros k milestone Hk. eexists. split; [exact (discover_loop_nth self _ 0 k _ Hk)|].
  cbn [discover_one ProjectConfig.name ProjectConfig.milestone_number ProjectConfig.color].
  split; [reflexivity|]. split; [reflexivity|].
  destruct (String.eqb_spec (GH.state milestone) "closed") as [Hs|Hs];
    destruct (Z.eqb_spec (GH.open_issues milestone) 0) as [Hz|Hz];
    repeat split; intros; congruence.
Qed.


(** The block builder of one group touches nothing of the world and
    reads nothing from it. *)
Lemma create_project_block_pure (project : ProjectConfig.t) (milestone_data : MD.t) :
  exists r, forall w, create_project_block lib project milestone_data w = (r, w).
Proof.
  unfold create_project_block, bind, parse_timestamp.
  destruct (MD.due_date milestone_data) as [[|a s]|].
  - destruct (fromisoformat lib _); eexists; intros w; reflexivity.
  - destruct (fromisoformat lib (Py.replace_char "Z" "+00:00" (String a s)));
      [|eexists; intros w; reflexivity].
    destruct (fromisoformat lib _); eexists; intros w; reflexivity.
  - destruct (fromisoformat lib _); eexists; intros w; reflexivity.
Qed.

(** C8.  The per-group block builder gives the same result (blocks or
    exception) in any two worlds, whatever the clock, the network and what
    was printed before, and leaves the world as it found it; called twice
    with the same arguments it returns the same blocks twice. *)
Theorem create_project_block_deterministic
    (project : ProjectConfig.t) (milestone_data : MD.t) (w1 w2 : World) :
  fst (create_project_block lib project milestone_data w1)
  = fst (create_project_block lib project milestone_data w2)
  /\ snd (create_project_block lib project milestone_data w1) = w1
  /\ (first <- create_project_block lib project milestone_data ;;
      second <- create_project_block lib project milestone_data ;;
      ret (first, second)) w1
     = (match fst (create_project_block lib project milestone_data w1) with
        | Ok blocks => Ok (blocks, blocks)
        | Raise e => Raise e
        end, w1).
Proof.
  destruct (create_project_block_pure project milestone_data) as [r Hr].
  unfold bind. rewrite !Hr. cbn [fst snd].
  split; [reflexivity|]. split; [reflexivity|].
  destruct r as [blocks|e]; reflexivity.
Qed.

(** *** The run as a whole *)

(** C9.  When discovery yields no group, which is also what a failed
    discovery request collapses to, the run prints its closing line and
    returns: the discovery request is the only request it issues (no fetch,
    no delivery), and the clock is never read (no document is assembled). *)
Theorem empty_discovery_ends_the_run (self : Bot.t) (w : World) :
  (forall e,
      request_error (discovery_request self)
        (github_milestones outside (List.length (sent w)) (discovery_request self))
      = Some e ->
      fst (discover_all_milestones lib outside self w) = Ok [])
  /\ (fst (discover_all_milestones lib outside self w) = Ok [] ->
      exists line,
        generate_weekly_report lib outside self w
        = (Ok tt,
           mk_world
             (stdout w ++ ["🚀 Generating weekly progress report...";
                           "🔍 Auto-discovering milestones...";
                           line;
                           "❌ No milestones found in the repository"])%list
             (sent w ++ [discovery_request self])%list
             (clock_reads w) [])).
Proof.
  destruct (discover_all_milestones_returns self (List.length (sent w)))
    as (discovered & line & Hrun & Hfail & _).
  split.
  - intros e He. rewrite (Hrun w eq_refl). cbn [fst]. now rewrite (Hfail e He).
  - rewrite (Hrun w eq_refl). cbn [fst]. intros [= ->].
    exists line. unfold generate_weekly_report.
    erewrite bind_ok by reflexivity.
    erewrite bind_ok by reflexivity.
    erewrite bind_ok by (apply Hrun; reflexivity).
    erewrite bind_ok by reflexivity.
    erewrite bind_ok by reflexivity.
    cbn [milestones]. unfold print.
    cbn [stdout sent clock_reads milestones].
    rewrite <- !app_assoc. reflexivity.
Qed.

(** *** Delivery *)

Lemma posts_app (l1 l2 : list request) : posts (l1 ++ l2) = (posts l1 ++ posts l2)%list.
Proof. apply filter_app. Qed.

Lemma posts_milestone_requests (self : Bot.t) (todo : list ProjectConfig.t) :
  posts (map (milestone_request self) todo) = [].
Proof. induction todo as [|p rest IH]; [reflexivity | exact IH]. Qed.

(** The second loop touches nothing of the world. *)
Lemma blocks_loop_pure (todo : list (ProjectConfig.t * option MD.t)) :
  forall all_blocks, exists r, forall w, blocks_loop lib todo all_blocks w = (r, w).
Proof.
  induction todo as [|[milestone [data|]] rest IH]; intros all_blocks.
  - eexists. intros w. reflexivity.
  - destruct (create_project_block_pure milestone data) as [[fragment|e] Hf].
    + destruct (IH (all_blocks ++ fragment)%list) as [r Hr]. exists r. intros w.
      cbn [blocks_loop milestone_fragment]. erewrite bind_ok by apply Hf. apply Hr.
    + eexists. intros w.
      cbn [blocks_loop milestone_fragment]. erewrite bind_raise by apply Hf. reflexivity.
  - destruct (IH (all_blocks ++ [error_block milestone; divider])%list) as [r Hr].
    exists r. intros w. cbn [blocks_loop]. apply Hr.
Qed.

Lemma send_slack_message_eq (self : Bot.t) (blocks : list pyval) (w : World) :
  let rq := slack_request self blocks in
  send_slack_message lib outside self blocks w
  = match slack_postMessage outside (List.length (sent w)) rq with
    | ConnectionFailed msg =>
        (Ok false, after_delivery w rq ("❌ Error sending Slack message: " ++ msg))
    | Responded r =>
        if is_http_error r then
          (Ok false,
           after_delivery w rq ("❌ Error sending Slack message: " ++ http_error_msg rq r))
        else if Slack.ok (json r) then
          (Ok true, after_delivery w rq "✅ Successfully sent progress report to Slack!")
        else
          (Ok false,
           after_delivery w rq
             ("❌ Slack API error: "
                ++ match Slack.error (json r) with
                   | Some e => e
                   | None => "Unknown error"
                   end))
    end.
Proof.
  intros rq.
  unfold send_slack_message, try_except_RequestException, bind, send. fold rq.
  destruct (slack_postMessage outside _ rq) as [msg|r]; [reflexivity|].
  unfold raise_for_status. destruct (is_http_error r); [reflexivity|].
  cbn. destruct (Slack.ok (json r)); reflexivity.
Qed.

Lemma send_slack_message_returns (self : Bot.t) (blocks : list pyval) (w : World) :
  exists success line,
    send_slack_message lib outside self blocks w
    = (Ok success, after_delivery w (slack_request self blocks) line)
    /\ (delivery_refused (slack_request self blocks)
          (slack_postMessage outside (List.length (sent w)) (slack_request self blocks))
        = true -> success = false).
Proof.
  rewrite send_slack_message_eq. unfold delivery_refused, request_error.
  destruct (slack_postMessage outside _ _) as [msg|r].
  - do 2 eexists. split; [reflexivity | reflexivity].
  - destruct (is_http_error r).
    + do 2 eexists. split; reflexivity.
    + destruct (Slack.ok (json r)); do 2 eexists; split;
        try reflexivity; discriminate.
Qed.

(** C5.  Delivery returns [False] and prints the error it was given, the
    exception text of a failed request or the [error] of an acknowledgment
    with [ok = false], and it never raises.  A run issues at most one
    delivery request, as its last request; when that delivery is refused the
    run ends normally on the line that reports the failure, with no second
    attempt. *)
Theorem delivery_failure_is_reported (self : Bot.t) :
  (forall blocks w,
      let rq := slack_request self blocks in
      let answer := slack_postMessage outside (List.length (sent w)) rq in
      (forall msg,
          answer = ConnectionFailed msg ->
          send_slack_message lib outside self blocks w
          = (Ok false, after_delivery w rq ("❌ Error sending Slack message: " ++ msg)))
      /\ (forall r,
             answer = Responded r -> is_http_error r = true ->
             send_slack_message lib outside self blocks w
             = (Ok false,
                after_delivery w rq
                  ("❌ Error sending Slack message: " ++ http_error_msg rq r)))
      /\ (forall r,
             answer = Responded r -> is_http_error r = false ->
             Slack.ok (json r) = false ->
             send_slack_message lib outside self blocks w
             = (Ok false,
                after_delivery w rq
                  ("❌ Slack API error: "
                     ++ match Slack.error (json r) with
                        | Some e => e
                        | None => "Unknown error"
                        end)))
      /\ (exists success line,
             send_slack_message lib outside self blocks w
             = (Ok success, after_delivery w rq line)))
  /\ (forall w, exists res w',
         generate_weekly_report lib outside self w = (res, w')
         /\ (posts (sent w') = posts (sent w)
             \/ exists blocks before,
                 sent w' = (before ++ [slack_request self blocks])%list
                 /\ posts before = posts (sent w)
                 /\ (delivery_refused (slack_request self blocks)
                       (slack_postMessage outside (List.length before)
                          (slack_request self blocks)) = true ->
                     res = Ok tt
                     /\ exists printed line,
                         stdout w'
                         = (printed ++ [line; "❌ Failed to send report."])%list))).
Proof.
  split.
  - intros blocks w rq answer. pose proof (send_slack_message_eq self blocks w) as Heq.
    cbv zeta in Heq. fold rq in Heq. fold answer in Heq.
    split; [|split; [|split]].
    + intros msg Ha. now rewrite Heq, Ha.
    + intros r Ha Herr. now rewrite Heq, Ha, Herr.
    + intros r Ha Herr Hok. now rewrite Heq, Ha, Herr, Hok.
    + destruct (send_slack_message_returns self blocks w) as (success & line & Hs & _).
      now exists success, line.
  - intros w.
    exists (fst (generate_weekly_report lib outside self w)),
      (snd (generate_weekly_report lib outside self w)).
    split; [apply surjective_pairing|].
    destruct (discover_all_milestones_returns self (List.length (sent w)))
      as (discovered & line & Hrun & _).
    unfold generate_weekly_report.
    erewrite bind_ok by reflexivity.
    erewrite bind_ok by reflexivity.
    erewrite bind_ok by (apply Hrun; reflexivity).
    erewrite bind_ok by reflexivity.
    erewrite bind_ok by reflexivity.
    cbn [milestones]. destruct discovered as [|d rest].
    + left. cbn [print snd sent]. rewrite posts_app. apply app_nil_r.
    + match goal with
      | |- context [bind (fetch_loop _ _ _ _ _) _ ?w4] =>
          destruct (fetch_loop_visits_all self (d :: rest) [] w4)
            as (fetched & printed & Hf & _)
      end.
      erewrite bind_ok by exact Hf.
      erewrite bind_ok by (apply create_summary_blocks_eq, avg_progress_ok).
      match goal with
      | |- context [blocks_loop _ ?md ?acc] =>
          destruct (blocks_loop_pure md acc) as [[all_blocks|e] Hb]
      end.
      * erewrite bind_ok by apply Hb.
        erewrite bind_ok by reflexivity.
        match goal with
        | |- context [bind (send_slack_message _ _ _ ?blocks) _ ?w8] =>
            destruct (send_slack_message_returns self blocks w8)
              as (success & line' & Hs & Hrefused);
            erewrite bind_ok by exact Hs;
            right; exists blocks, (sent w8)
        end.
        split; [destruct success; reflexivity|].
        split.
        { cbn [sent]. rewrite !posts_app, posts_milestone_requests.
          cbn. now rewrite !app_nil_r. }
        intros Href. rewrite (Hrefused Href).
        split; [reflexivity|].
        eexists _, line'. cbn [print snd stdout after_delivery].
        rewrite <- app_assoc. reflexivity.
      * erewrite bind_raise by apply Hb.
        left. cbn [snd sent]. rewrite !posts_app, posts_milestone_requests.
        cbn. now rewrite !app_nil_r.
Qed.

End Run.

(* ================================================================= *)
(** ** The theorems at work on the sample outside *)



(** C7 on the three sample milestones: Gamma, the third, is closed. *)
Lemma discovered_color_rule_witness :
  exists discovered w',
    discover_all_milestones Sample.lib Sample.accepting Sample.bot Sample.w0
    = (Ok discovered, w')
    /\ List.length discovered = 3%nat
    /\ exists config,
        nth_error discovered 2 = Some config
        /\ ProjectConfig.name config = "Gamma"
        /\ ProjectConfig.color config = "#28a745".
Proof.
  destruct (discovered_color_rule Sample.lib Sample.accepting Sample.bot Sample.w0
              (mk_response 200 "OK" [Sample.alpha; Sample.beta; Sample.gamma])
              eq_refl eq_refl)
    as (discovered & w' & Hrun & Hlen & Hcolor).
  exists discovered, w'. split; [exact Hrun|]. split; [exact Hlen|].
  destruct (Hcolor 2%nat Sample.gamma eq_refl)
    as (config & Hnth & Hname & _ & Hclosed & _).
  exists config. split; [exact Hnth|]. split; [exact Hname|].
  apply Hclosed. reflexivity.
Defined.


(** C9 when GitHub is unreachable: one request, four lines, no delivery. *)
Lemma empty_discovery_ends_the_run_witness :
  exists line,
    generate_weekly_report Sample.lib Sample.offline Sample.bot Sample.w0
    = (Ok tt,
       mk_world
         ["🚀 Generating weekly progress report...";
          "🔍 Auto-discovering milestones...";
          line;
          "❌ No milestones found in the repository"]
         [discovery_request Sample.bot] 0 []).
Proof.
  destruct (empty_discovery_ends_the_run Sample.lib Sample.offline Sample.bot Sample.w0)
    as [Hfail Hrun].
  exact (Hrun (Hfail "Connection refused" eq_refl)).
Defined.

(** C5 when Slack answers [ok = false] with [channel_not_found]. *)
Lemma delivery_failure_is_reported_witness :
  send_slack_message Sample.lib Sample.refusing Sample.bot [divider] Sample.w0
  = (Ok false,
     after_delivery Sample.w0 (slack_request Sample.bot [divider])
       "❌ Slack API error: channel_not_found").
Proof.
  exact (proj1 (proj2 (proj2 (proj1 (delivery_failure_is_reported
                                      Sample.lib Sample.refusing Sample.bot)
                                [divider] Sample.w0)))
           (mk_response 200 "OK" (Slack.mk false (Some "channel_not_found")))
           eq_refl eq_refl eq_refl).
Defined.

(** The whole run when Slack refuses: every group is fetched, the second
    one failing, one delivery is attempted, and the last line reports the
    failure. *)
Example run_with_refused_delivery :
  let run := generate_weekly_report Sample.lib Sample.refusing Sample.bot Sample.w0 in
  fst run = Ok tt
  /\ map method (sent (snd run)) = ["GET"; "GET"; "GET"; "GET"; "POST"]
  /\ stdout (snd run)
     = ["🚀 Generating weekly progress report...";
        "🔍 Auto-discovering milestones...";
        "🔍 Discovered 3 milestones in leyangloh/FakeProgress";
        "📊 Fetching data for Alpha...";
        "📊 Fetching data for Beta...";
        "❌ Error fetching milestone data for Beta: 404 Client Error: Not Found for url: https://api.github.com/repos/leyangloh/FakeProgress/milestones/2";
        "📊 Fetching data for Gamma...";
        "❌ Slack API error: channel_not_found";
        "❌ Failed to send report."].
Proof. repeat split; vm_compute; reflexivity. Qed.

(** The summary builder, unlike the per-group builder, reads the clock:
    its output changes with the world it runs in. *)
Example create_summary_blocks_reads_the_clock :
  fst (create_summary_blocks Sample.lib Sample.accepting [] Sample.w0)
  <> fst (create_summary_blocks Sample.lib
            (mk_outside Sample.lib (fun _ => Sample.mk_dt 2026 1 1 0 0)
               (github_milestones Sample.accepting)
               (github_milestone Sample.accepting)
               (slack_postMessage Sample.accepting))
            [] Sample.w0).
Proof. vm_compute. discriminate. Qed.

(* ================================================================= *)
(** ** More on the progress bar and the indicators *)

Section Indicators.

Lemma count_filled_bar (percentage : Q) (width : Z) :
  Py.count filled_char (create_progress_bar percentage width)
  = Z.to_nat (Py.int_of_float (percentage / 100 * inject_Z width)).
Proof.
  unfold create_progress_bar, Py.str_mul.
  rewrite count_filled_in_filled, count_filled_in_empty. lia.
Qed.

Lemma count_empty_bar (percentage : Q) (width : Z) :
  Py.count empty_char (create_progress_bar percentage width)
  = Z.to_nat (width - Py.int_of_float (percentage / 100 * inject_Z width)).
Proof.
  unfold create_progress_bar, Py.str_mul.
  now rewrite count_empty_in_filled, count_empty_in_empty.
Qed.



(** At 150 percent a bar of width 20 has 30 cells, all filled; at -50
    percent it has 30 cells, all empty. *)
Example create_progress_bar_out_of_range :
  Py.len (create_progress_bar 150 20) = 30%nat
  /\ Py.count filled_char (create_progress_bar 150 20) = 30%nat
  /\ Py.len (create_progress_bar (-50) 20) = 30%nat
  /\ Py.count empty_char (create_progress_bar (-50) 20) = 30%nat.
Proof. repeat split; vm_compute; reflexivity. Qed.

Lemma scaled_monotone (p1 p2 : Q) (width : Z) :
  (p1 <= p2)%Q -> 0 <= width ->
  (p1 / 100 * inject_Z width <= p2 / 100 * inject_Z width)%Q.
Proof.
  intros Hp Hw.
  change (p1 / 100)%Q with (p1 * (1 # 100))%Q.
  change (p2 / 100)%Q with (p2 * (1 # 100))%Q.
  apply Qmult_le_compat_r; [lra|]. unfold Qle. simpl. lia.
Qed.

(** More progress never shows fewer filled cells. *)
Theorem create_progress_bar_monotone (p1 p2 : Q) (width : Z) :
  (0 <= p1)%Q -> (p1 <= p2)%Q -> 0 <= width ->
  (Py.count filled_char (create_progress_bar p1 width)
   <= Py.count filled_char (create_progress_bar p2 width))%nat.
Proof.
  intros H0 Hp Hw. rewrite !count_filled_bar.
  assert (HW : (0 <= inject_Z width)%Q) by (unfold Qle; simpl; lia).
  assert (H1 : (0 <= p1 / 100 * inject_Z width)%Q).
  { change (p1 / 100)%Q with (p1 * (1 # 100))%Q.
    apply Qmult_le_0_compat; [lra | exact HW]. }
  pose proof (scaled_monotone p1 p2 width Hp Hw) as H12.
  rewrite !int_of_float_floor by (try exact H1; eapply Qle_trans; eassumption).
  apply Z2Nat.inj_le.
  - rewrite <- (Qfloor_Z 0). now apply Qfloor_resp_le.
  - rewrite <- (Qfloor_Z 0). apply Qfloor_resp_le. eapply Qle_trans; eassumption.
  - now apply Qfloor_resp_le.
Qed.

(** Within [0, 100] the bar has no empty cell exactly at 100 percent. *)
Theorem create_progress_bar_full_iff (percentage : Q) (width : Z) :
  (0 <= percentage <= 100)%Q -> 0 < width ->
  (Py.count empty_char (create_progress_bar percentage width) = 0%nat
   <-> (percentage == 100)%Q).
Proof.
  intros Hp Hw. rewrite count_empty_bar.
  destruct (scaled_bounds percentage width Hp Hw) as [Hlo Hhi].
  rewrite (int_of_float_floor _ Hlo).
  assert (HW : (0 < inject_Z width)%Q) by (unfold Qlt; simpl; lia).
  split.
  - intros Hfull.
    destruct (Qlt_le_dec percentage 100) as [Hlt|Hge]; [|apply Qle_antisym; tauto].
    exfalso.
    assert (Hx : (percentage / 100 * inject_Z width < inject_Z width)%Q).
    { change (percentage / 100)%Q with (percentage * (1 # 100))%Q.
      setoid_replace (inject_Z width) with (1 * inject_Z width)%Q at 2 by ring.
      apply Qmult_lt_compat_r; [exact HW | lra]. }
    pose proof (Qfloor_le (percentage / 100 * inject_Z width)) as Hfl.
    assert (Hz : (inject_Z (Qfloor (percentage / 100 * inject_Z width))
                  < inject_Z width)%Q) by (eapply Qle_lt_trans; eassumption).
    rewrite <- Zlt_Qlt in Hz. lia.
  - intros Heq.
    assert (Hx : (percentage / 100 * inject_Z width == inject_Z width)%Q).
    { rewrite Heq. field. }
    rewrite (Qfloor_comp _ _ Hx), Qfloor_Z. lia.
Qed.

(** The trend is neutral without a previous value; with one it points up
    exactly when the value grew, down exactly when it shrank, sideways
    exactly when it is unchanged, and swapping the two values swaps up and
    down. *)
Theorem get_trend_indicator_cases (current previous : Q) :
  get_trend_indicator current None = "📊"
  /\ (get_trend_indicator current (Some previous) = "📈" <-> (previous < current)%Q)
  /\ (get_trend_indicator current (Some previous) = "📉" <-> (current < previous)%Q)
  /\ (get_trend_indicator current (Some previous) = "➡️" <-> (current == previous)%Q)
  /\ (get_trend_indicator current (Some previous) = "📈"
      <-> get_trend_indicator previous (Some current) = "📉").
Proof.
  unfold get_trend_indicator.
  destruct (Qle_bool current previous) eqn:Hcp;
    destruct (Qle_bool previous current) eqn:Hpc; cbn [negb];
    try apply Qle_bool_iff in Hcp; try apply Qle_bool_iff in Hpc;
    try apply Qle_bool_false in Hcp; try apply Qle_bool_false in Hpc;
    repeat split; intros; try discriminate; try reflexivity; try lra.
Qed.

End Indicators.

(* ================================================================= *)
(** ** More on the summary figures *)

Section SummaryFigures.

Lemma sum_acc (xs : list Q) (a : Q) : (fold_left Qplus xs a == a + Py.sum xs)%Q.
Proof.
  unfold Py.sum. revert a. induction xs as [|x xs IH]; intros a; simpl.
  - ring.
  - rewrite (IH (a + x)%Q), (IH (0 + x)%Q). ring.
Qed.

Lemma sum_cons (x : Q) (xs : list Q) : (Py.sum (x :: xs) == x + Py.sum xs)%Q.
Proof. unfold Py.sum at 1. simpl. rewrite sum_acc. ring. Qed.

Lemma sum_bounds (xs : list Q) :
  Forall (fun p => 0 <= p <= 100)%Q xs ->
  (0 <= Py.sum xs <= 100 * inject_Z (Z.of_nat (List.length xs)))%Q.
Proof.
  induction 1 as [|x xs Hx _ IH].
  - split; unfold Qle; simpl; lia.
  - rewrite sum_cons. cbn [List.length]. rewrite Nat2Z.inj_succ.
    unfold Z.succ. rewrite inject_Z_plus. change (inject_Z 1) with 1%Q. lra.
Qed.

Lemma completed_le_fetched milestones_data :
  (List.length (filter is_completed milestones_data)
   <= List.length (fetched_percentages milestones_data))%nat.
Proof.
  induction milestones_data as [|[g [d|]] rest IH]; cbn; [lia| |exact IH].
  destruct (Qle_bool 100 (MD.progress_percentage d)); simpl; lia.
Qed.

Lemma fetched_le_total milestones_data :
  (List.length (fetched_percentages milestones_data) <= List.length milestones_data)%nat.
Proof.
  induction milestones_data as [|[g [d|]] rest IH]; simpl; lia.
Qed.

(** The completed count never exceeds the number of fetched groups, which
    never exceeds the total; and when every fetched percentage lies in
    [0, 100], so does the reported average. *)
Theorem summary_figures_bounds (milestones_data : list (ProjectConfig.t * option MD.t)) :
  Forall (fun p => 0 <= p <= 100)%Q (fetched_percentages milestones_data) ->
  0 <= completed_milestones milestones_data
    <= Z.of_nat (List.length (fetched_percentages milestones_data))
  /\ Z.of_nat (List.length (fetched_percentages milestones_data))
     <= total_milestones milestones_data
  /\ exists avg, avg_progress milestones_data = Ok avg /\ (0 <= avg <= 100)%Q.
Proof.
  intros Hall.
  pose proof (completed_le_fetched milestones_data) as Hcf.
  pose proof (fetched_le_total milestones_data) as Hft.
  rewrite completed_milestones_count. unfold total_milestones.
  split; [lia|]. split; [lia|].
  eexists. split; [apply avg_progress_ok|].
  unfold total_milestones.
  destruct (Z.of_nat (List.length milestones_data) >? 0) eqn:Ht;
    [|split; unfold Qle; simpl; lia].
  destruct (sum_bounds _ Hall) as [Hlo Hhi].
  set (n := Z.of_nat (List.length milestones_data)) in *.
  assert (Hn : (0 < inject_Z n)%Q) by (unfold Qlt; simpl; lia).
  assert (Hfn : (inject_Z (Z.of_nat (List.length (fetched_percentages milestones_data)))
                 <= inject_Z n)%Q).
  { rewrite <- Zle_Qle. unfold n. lia. }
  split.
  - apply Qle_shift_div_l; [exact Hn|]. lra.
  - apply Qle_shift_div_r; [exact Hn|]. lra.
Qed.


End SummaryFigures.

(* ================================================================= *)
(** ** Trimming the last divider *)

Section Trimming.

(** The trim removes one trailing divider and nothing else: a document
    that ends in another block, or is empty, is returned unchanged, and of
    two trailing dividers one stays. *)
Theorem remove_last_divider_cases :
  remove_last_divider [] = []
  /\ (forall blocks, remove_last_divider (blocks ++ [divider]) = blocks)
  /\ (forall blocks, remove_last_divider (blocks ++ [divider; divider])
                     = (blocks ++ [divider])%list)
  /\ (forall blocks last_block,
         get_is "type" "divider" last_block = false ->
         remove_last_divider (blocks ++ [last_block]) = (blocks ++ [last_block])%list).
Proof.
  split; [reflexivity|]. split; [|split].
  - intros blocks. unfold remove_last_divider.
    rewrite rev_app_distr. cbn. apply removelast_last.
  - intros blocks. unfold remove_last_divider.
    rewrite rev_app_distr. cbn.
    change [divider; divider] with ([divider] ++ [divider])%list.
    rewrite app_assoc. apply removelast_last.
  - intros blocks last_block Hlast. unfold remove_last_divider.
    rewrite rev_app_distr. cbn [rev app]. now rewrite Hlast.
Qed.

End Trimming.

(* ================================================================= *)
(** ** More on discovery and fetch *)

Section DiscoveryAndFetch.

Variable lib : DatetimeLib.
Variable outside : Outside lib.

Lemma emoji_map_get_palette (k : nat) :
  emoji_map_get emoji_map (Z.of_nat k mod Z.of_nat (List.length emoji_map)) "📋"
  = nth (k mod 6) palette "📋"
  /\ nth (k mod 6) palette "📋" <> "📋".
Proof.
  change (Z.of_nat (List.length emoji_map)) with (Z.of_nat 6).
  rewrite <- Nat2Z.inj_mod.
  assert (H : (k mod 6 < 6)%nat) by (apply Nat.mod_upper_bound; lia).
  destruct (k mod 6)%nat as [|[|[|[|[|[|n]]]]]]; try lia;
    (split; [reflexivity | discriminate]).
Qed.

Lemma discover_loop_nth_inv (self : Bot.t) (ms : list GH.t) (k : nat)
    (config : ProjectConfig.t) :
  nth_error (discover_loop self 0 ms []) k = Some config ->
  exists milestone,
    nth_error ms k = Some milestone
    /\ config = discover_one self (Z.of_nat k) milestone.
Proof.
  intros Hk.
  assert (Hlt : (k < List.length ms)%nat).
  { rewrite <- (discover_loop_length self ms 0). apply nth_error_Some. congruence. }
  destruct (nth_error ms k) as [milestone|] eqn:Hm;
    [|apply nth_error_None in Hm; lia].
  exists milestone. split; [reflexivity|].
  rewrite (discover_loop_nth self ms 0 k milestone Hm) in Hk.
  now injection Hk as <-.
Qed.

(** The emoji of the k-th discovered group is the entry [k mod 6] of the
    palette: the fallback ["📋"] is never used, and the emojis repeat every
    six groups. *)
Theorem discovered_emoji_round_robin (self : Bot.t) (w : World)
    (r : response (list GH.t)) :
  github_milestones outside (List.length (sent w)) (discovery_request self)
  = Responded r ->
  is_http_error r = false ->
  exists discovered w',
    discover_all_milestones lib outside self w = (Ok discovered, w')
    /\ forall k config,
        nth_error discovered k = Some config ->
        ProjectConfig.emoji config = nth (k mod 6) palette "📋"
        /\ ProjectConfig.emoji config <> "📋"
        /\ forall config',
            nth_error discovered (k + 6) = Some config' ->
            ProjectConfig.emoji config' = ProjectConfig.emoji config.
Proof.
  intros Ho Herr.
  destruct (discover_all_milestones_returns lib outside self (List.length (sent w)))
    as (discovered & line & Hrun & _ & Hok).
  rewrite (Hok r Ho Herr) in Hrun.
  do 2 eexists. split; [exact (Hrun w eq_refl)|].
  intros k config Hk.
  destruct (discover_loop_nth_inv self _ k config Hk) as (m & _ & ->).
  cbn [discover_one ProjectConfig.emoji].
  destruct (emoji_map_get_palette k) as [Hk1 Hk2].
  rewrite Hk1. split; [reflexivity|]. split; [exact Hk2|].
  intros config' Hk'.
  destruct (discover_loop_nth_inv self _ (k + 6) config' Hk') as (m' & _ & ->).
  cbn [discover_one ProjectConfig.emoji].
  destruct (emoji_map_get_palette (k + 6)) as [Hk3 _].
  rewrite Hk3. f_equal.
  rewrite <- (Nat.mul_1_l 6) at 1. apply Nat.Div0.mod_add.
Qed.

Lemma discover_loop_fields (self : Bot.t) (ms : list GH.t) :
  forall i,
    map ProjectConfig.name (discover_loop self i ms []) = map GH.title ms
    /\ map ProjectConfig.milestone_number (discover_loop self i ms []) = map GH.number ms
    /\ Forall (fun config => ProjectConfig.repo_owner config = Bot.repo_owner self
                             /\ ProjectConfig.repo_name config = Bot.repo_name self)
         (discover_loop self i ms []).
Proof.
  induction ms as [|m rest IH]; intros i.
  - repeat split. constructor.
  - rewrite discover_loop_cons. destruct (IH (i + 1)) as (Hn & Hnum & Hrepo).
    cbn [map discover_one ProjectConfig.name ProjectConfig.milestone_number].
    rewrite Hn, Hnum. repeat split. constructor; [split; reflexivity | exact Hrepo].
Qed.

(** Discovery keeps the order of the response: the names and numbers of
    the discovered groups are the titles and numbers of the milestones, in
    order; every group carries the bot's repository; and the line printed
    counts them. *)
Theorem discovery_keeps_order (self : Bot.t) (w : World) (r : response (list GH.t)) :
  github_milestones outside (List.length (sent w)) (discovery_request self)
  = Responded r ->
  is_http_error r = false ->
  exists discovered,
    discover_all_milestones lib outside self w
    = (Ok discovered,
       after_delivery w (discovery_request self)
         ("🔍 Discovered " ++ Py.str_of_int (Z.of_nat (List.length (json r)))
            ++ " milestones in " ++ Bot.repo_owner self ++ "/" ++ Bot.repo_name self))
    /\ map ProjectConfig.name discovered = map GH.title (json r)
    /\ map ProjectConfig.milestone_number discovered = map GH.number (json r)
    /\ Forall (fun config => ProjectConfig.repo_owner config = Bot.repo_owner self
                             /\ ProjectConfig.repo_name config = Bot.repo_name self)
         discovered.
Proof.
  intros Ho Herr.
  exists (discover_loop self 0 (json r) []).
  split; [|apply discover_loop_fields].
  unfold discover_all_milestones, try_except_RequestException, bind, send.
  rewrite Ho. unfold raise_for_status. rewrite Herr. cbn.
  rewrite discover_loop_length. reflexivity.
Qed.


End DiscoveryAndFetch.

(* ================================================================= *)
(** ** The fragment of one group, and delivery *)

Section Fragments.

Variable lib : DatetimeLib.
Variable outside : Outside lib.

Lemma create_project_block_ok (project : ProjectConfig.t) (milestone_data : MD.t) :
  timestamps_parse lib milestone_data = true ->
  exists s1 s2 s3 actions,
    (forall w, create_project_block lib project milestone_data w
               = (Ok [header (ProjectConfig.name project); s1; s2; s3; actions; divider], w))
    /\ block_types [s1; s2; s3; actions]
       = [Some (PStr "section"); Some (PStr "section"); Some (PStr "section");
          Some (PStr "actions")].
Proof.
  unfold timestamps_parse, create_project_block, bind, parse_timestamp.
  destruct (MD.due_date milestone_data) as [[|a s]|].
  - destruct (fromisoformat lib _); [|discriminate]. intros _.
    do 4 eexists. split; [intros w; reflexivity | reflexivity].
  - destruct (fromisoformat lib (Py.replace_char "Z" "+00:00" (String a s)));
      [|discriminate].
    destruct (fromisoformat lib _); [|discriminate]. intros _.
    do 4 eexists. split; [intros w; reflexivity | reflexivity].
  - destruct (fromisoformat lib _); [|discriminate]. intros _.
    do 4 eexists. split; [intros w; reflexivity | reflexivity].
Qed.

Lemma create_project_block_raises (project : ProjectConfig.t) (milestone_data : MD.t) :
  timestamps_parse lib milestone_data = false ->
  exists msg, forall w,
    create_project_block lib project milestone_data w = (Raise (ValueError msg), w).
Proof.
  unfold timestamps_parse, create_project_block, bind, parse_timestamp.
  destruct (MD.due_date milestone_data) as [[|a s]|].
  - destruct (fromisoformat lib _); [discriminate|]. intros _.
    eexists. intros w. reflexivity.
  - destruct (fromisoformat lib (Py.replace_char "Z" "+00:00" (String a s))).
    + destruct (fromisoformat lib _); [discriminate|]. intros _.
      eexists. intros w. reflexivity.
    + intros _. eexists. intros w. reflexivity.
  - destruct (fromisoformat lib _); [discriminate|]. intros _.
    eexists. intros w. reflexivity.
Qed.

(** When the due date (if any) and the update time are ISO timestamps,
    the block builder returns six blocks: the header with the group's name,
    three sections, the actions and a divider.  When one of them is not, it
    raises [ValueError] and returns no block. *)
Theorem create_project_block_shape (project : ProjectConfig.t) (milestone_data : MD.t)
    (w : World) :
  (timestamps_parse lib milestone_data = true ->
   exists blocks,
     create_project_block lib project milestone_data w = (Ok blocks, w)
     /\ block_types blocks = project_block_types
     /\ nth_error blocks 0 = Some (header (ProjectConfig.name project))
     /\ nth_error blocks 5 = Some divider)
  /\ (timestamps_parse lib milestone_data = false ->
      exists msg,
        create_project_block lib project milestone_data w = (Raise (ValueError msg), w)).
Proof.
  split; intros H.
  - destruct (create_project_block_ok project milestone_data H)
      as (s1 & s2 & s3 & actions & Hrun & Htypes).
    eexists. split; [apply Hrun|].
    split; [|split; reflexivity].
    unfold block_types in *. cbn [map] in *.
    injection Htypes as -> -> -> ->. reflexivity.
  - destruct (create_project_block_raises project milestone_data H) as [msg Hrun].
    exists msg. apply Hrun.
Qed.

(** Delivery returns [True] exactly when the request was answered with an
    accepted status and [ok = true], and it then prints the success line. *)
Theorem send_slack_message_true_iff (self : Bot.t) (blocks : list pyval) (w : World) :
  exists success line,
    send_slack_message lib outside self blocks w
    = (Ok success, after_delivery w (slack_request self blocks) line)
    /\ (success = true
        <-> delivery_refused (slack_request self blocks)
              (slack_postMessage outside (List.length (sent w))
                 (slack_request self blocks)) = false)
    /\ (success = true -> line = "✅ Successfully sent progress report to Slack!").
Proof.
  rewrite send_slack_message_eq. unfold delivery_refused, request_error.
  destruct (slack_postMessage outside _ _) as [msg|r].
  - do 2 eexists. split; [reflexivity|]. split; [split|]; discriminate.
  - destruct (is_http_error r).
    + do 2 eexists. split; [reflexivity|]. split; [split|]; discriminate.
    + destruct (Slack.ok (json r)); do 2 eexists;
        (split; [reflexivity|]); (split; [split|]); try discriminate; reflexivity.
Qed.

End Fragments.

(* ================================================================= *)
(** ** The anatomy of a run *)

Section Anatomy.

Variable lib : DatetimeLib.
Variable outside : Outside lib.

Lemma get_is_of_type (b : pyval) (t s : string) :
  dict_get "type" b = Some (PStr t) -> get_is "type" s b = String.eqb t s.
Proof. unfold get_is. now intros ->. Qed.

(** What the second loop builds when no fragment raises: the fragments
    one after the other, six blocks for a fetched group and two for a failed
    one, the last two blocks being a block that is no divider and a divider. *)
Lemma blocks_loop_body (todo : list (ProjectConfig.t * option MD.t)) :
  forall all_blocks result w,
    blocks_loop lib todo all_blocks w = (Ok result, w) ->
    exists body,
      result = (all_blocks ++ body)%list
      /\ List.length body
         = (6 * List.length (filter is_fetched todo)
            + 2 * (List.length todo - List.length (filter is_fetched todo)))%nat
      /\ (todo <> [] ->
          exists before last_block,
            body = (before ++ [last_block; divider])%list
            /\ get_is "type" "divider" last_block = false).
Proof.
  induction todo as [|[milestone [data|]] rest IH]; intros all_blocks result w Hrun.
  - injection Hrun as <-. exists []. rewrite app_nil_r. repeat split. congruence.
  - cbn [blocks_loop milestone_fragment] in Hrun.
    destruct (timestamps_parse lib data) eqn:Hparse.
    + destruct (create_project_block_ok lib milestone data Hparse)
        as (s1 & s2 & s3 & actions & Hblock & Htypes).
      erewrite bind_ok in Hrun by apply Hblock.
      destruct (IH _ _ _ Hrun) as (body & -> & Hlen & Hend).
      eexists. split; [now rewrite <- app_assoc|]. split.
      * cbn [filter is_fetched snd List.length]. rewrite length_app, Hlen.
        cbn [List.length].
        pose proof (filter_length_le is_fetched rest). lia.
      * intros _. destruct rest as [|next rest].
        -- destruct body; [|cbn in Hlen; lia].
           exists [header (ProjectConfig.name milestone); s1; s2; s3], actions.
           split; [reflexivity|].
           unfold block_types in Htypes. cbn [map] in Htypes.
           injection Htypes as _ _ _ Hact.
           now rewrite (get_is_of_type _ _ _ Hact).
        -- destruct Hend as (before & last_block & -> & Hlast); [discriminate|].
           eexists (_ ++ before)%list, last_block.
           split; [now rewrite <- app_assoc | exact Hlast].
    + destruct (create_project_block_raises lib milestone data Hparse) as [msg Hblock].
      erewrite bind_raise in Hrun by apply Hblock. discriminate.
  - cbn [blocks_loop milestone_fragment] in Hrun.
    erewrite bind_ok in Hrun by reflexivity.
    destruct (IH _ _ _ Hrun) as (body & -> & Hlen & Hend).
    eexists. split; [now rewrite <- app_assoc|]. split.
    + cbn [filter is_fetched snd List.length]. rewrite length_app, Hlen.
      cbn [List.length].
      pose proof (filter_length_le is_fetched rest). lia.
    + intros _. destruct rest as [|next rest].
      * destruct body; [|cbn in Hlen; lia].
        exists [], (error_block milestone). split; reflexivity.
      * destruct Hend as (before & last_block & -> & Hlast); [discriminate|].
        eexists (_ ++ before)%list, last_block.
        split; [now rewrite <- app_assoc | exact Hlast].
Qed.

Lemma run_anatomy (self : Bot.t) (w : World) :
  exists discovered fetched,
    let run := generate_weekly_report lib outside self w in
    let md := combine discovered fetched in
    let requests := discovery_request self :: map (milestone_request self) discovered in
    milestones (snd run) = discovered
    /\ List.length fetched = List.length discovered
    /\ (discovered = [] ->
        fst run = Ok tt /\ sent (snd run) = (sent w ++ requests)%list
        /\ clock_reads (snd run) = clock_reads w)
    /\ (discovered <> [] ->
        exists start,
          block_types start
          = [Some (PStr "header"); Some (PStr "header"); Some (PStr "section");
             Some (PStr "divider")]
          /\ ((exists e,
                  (forall w1, blocks_loop lib md start w1 = (Raise e, w1))
                  /\ fst run = Raise e
                  /\ sent (snd run) = (sent w ++ requests)%list
                  /\ clock_reads (snd run) = S (clock_reads w))
              \/ (exists all_blocks footer,
                     (forall w1, blocks_loop lib md start w1 = (Ok all_blocks, w1))
                     /\ get_is "type" "context" footer = true
                     /\ fst run = Ok tt
                     /\ sent (snd run)
                        = (sent w ++ requests
                             ++ [slack_request self
                                   (remove_last_divider all_blocks ++ [footer])])%list
                     /\ clock_reads (snd run) = S (S (clock_reads w))))).
Proof.
  destruct (discover_all_milestones_returns lib outside self (List.length (sent w)))
    as (discovered & line & Hrun & _).
  exists discovered.
  unfold generate_weekly_report.
  erewrite bind_ok by reflexivity.
  erewrite bind_ok by reflexivity.
  erewrite bind_ok by (apply Hrun; reflexivity).
  erewrite bind_ok by reflexivity.
  erewrite bind_ok by reflexivity.
  cbn [milestones]. destruct discovered as [|d rest].
  - exists []. cbn zeta. cbn [print fst snd sent milestones clock_reads map].
    repeat split; congruence.
  - match goal with
    | |- context [bind (fetch_loop _ _ _ _ _) _ ?w4] =>
        destruct (fetch_loop_visits_all lib outside self (d :: rest) [] w4)
          as (fetched & printed & Hf & Hlen)
    end.
    exists fetched. cbn zeta.
    erewrite bind_ok by exact Hf.
    erewrite bind_ok by (apply create_summary_blocks_eq, avg_progress_ok).
    cbn [app].
    match goal with
    | |- context [bind (blocks_loop _ ?md ?acc) _ _] =>
        destruct (blocks_loop_pure lib md acc) as [[all_blocks|e] Hb];
        set (start := acc) in *
    end.
    + erewrite bind_ok by apply Hb.
      erewrite bind_ok by reflexivity.
      match goal with
      | |- context [bind (send_slack_message _ _ _ (_ ++ [?f])%list) _ _] =>
          set (footer := f)
      end.
      match goal with
      | |- context [bind (send_slack_message _ _ _ ?blocks) _ ?w8] =>
          destruct (send_slack_message_returns lib outside self blocks w8)
            as (success & line' & Hs & _);
          erewrite bind_ok by exact Hs
      end.
      split; [destruct success; reflexivity|].
      split; [exact Hlen|]. split; [discriminate|]. intros _.
      exists start. split; [reflexivity|]. right.
      exists all_blocks, footer. split; [exact Hb|]. split; [reflexivity|].
      split; [destruct success; reflexivity|].
      split; destruct success; cbn [print fst snd sent clock_reads after_delivery];
        rewrite <- ?app_assoc; reflexivity.
    + erewrite bind_raise by apply Hb.
      cbn [fst snd sent milestones clock_reads].
      split; [reflexivity|]. split; [exact Hlen|]. split; [discriminate|]. intros _.
      exists start. split; [reflexivity|]. left. exists e.
      split; [exact Hb|]. split; [reflexivity|].
      split; rewrite <- ?app_assoc; reflexivity.
Qed.

End Anatomy.

(* ================================================================= *)
(** ** The requests and the document of a run *)

Section Requests.

Variable lib : DatetimeLib.
Variable outside : Outside lib.

Lemma last_of_suffix {A : Type} (P : A -> Prop) (l1 l2 before : list A) (x : A) :
  Forall P l2 -> l2 <> [] -> (l1 ++ l2 = before ++ [x])%list -> P x.
Proof.
  intros HP Hne Heq.
  destruct (exists_last Hne) as (l2' & y & ->).
  rewrite app_assoc in Heq. apply app_inj_tail in Heq as [_ <-].
  apply Forall_app in HP as [_ HP]. now inversion HP.
Qed.

Lemma github_requests (self : Bot.t) (discovered : list ProjectConfig.t) :
  Forall (fun rq => method rq = "GET" /\ headers rq = Bot.github_headers self)
    (discovery_request self :: map (milestone_request self) discovered).
Proof.
  constructor; [split; reflexivity|].
  induction discovered as [|p rest IH]; constructor; [split; reflexivity | exact IH].
Qed.

(** The requests of a run are, in this order: the discovery request, one
    fetch for each group of [self.milestones] as discovery left it, and at
    most one delivery.  The GitHub requests carry the GitHub headers and the
    delivery the Slack headers, and nothing is delivered when no group was
    discovered. *)
Theorem run_requests (self : Bot.t) (w : World) :
  let w' := snd (generate_weekly_report lib outside self w) in
  let github :=
    discovery_request self :: map (milestone_request self) (milestones w') in
  exists delivery,
    sent w' = (sent w ++ github ++ delivery)%list
    /\ Forall (fun rq => method rq = "GET" /\ headers rq = Bot.github_headers self) github
    /\ (delivery = []
        \/ exists blocks,
            delivery = [slack_request self blocks]
            /\ method (slack_request self blocks) = "POST"
            /\ headers (slack_request self blocks) = Bot.slack_headers self)
    /\ (milestones w' = [] -> delivery = []).
Proof.
  destruct (run_anatomy lib outside self w)
    as (discovered & fetched & Hms & _ & Hempty & Hsome).
  cbv zeta in *. rewrite Hms.
  destruct discovered as [|d rest].
  - destruct (Hempty eq_refl) as (_ & Hsent & _).
    exists []. rewrite app_nil_r. split; [exact Hsent|].
    split; [apply github_requests|]. split; [now left | reflexivity].
  - destruct Hsome as (start & _ & [(e & _ & _ & Hsent & _)
                                  |(all_blocks & footer & _ & _ & _ & Hsent & _)]);
      [discriminate| |].
    + exists []. rewrite app_nil_r. split; [exact Hsent|].
      split; [apply github_requests|]. split; [now left | discriminate].
    + eexists. split; [exact Hsent|].
      split; [apply github_requests|]. split; [|discriminate].
      right. eexists. repeat split.
Qed.

Lemma remove_last_divider_snoc (blocks : list pyval) :
  remove_last_divider (blocks ++ [divider]) = blocks.
Proof.
  unfold remove_last_divider. rewrite rev_app_distr. cbn. apply removelast_last.
Qed.

Lemma combine_length_eq {A B : Type} (l1 : list A) (l2 : list B) :
  List.length l2 = List.length l1 -> List.length (combine l1 l2) = List.length l1.
Proof. intros H. rewrite length_combine. lia. Qed.

(** When a run delivers, the document it sends opens with the title
    header, the summary header, the summary section and a divider, and closes
    with the footer, which no divider precedes; between them each fetched
    group has six blocks and each failed one two, so the document has
    4 + 6 * fetched + 2 * failed blocks. *)
Theorem delivered_document_shape (self : Bot.t) (w : World)
    (before : list request) (blocks : list pyval) :
  sent (snd (generate_weekly_report lib outside self w))
  = (before ++ [slack_request self blocks])%list ->
  exists opening middle last_block footer fetched failed,
    blocks = (opening ++ middle ++ [last_block; footer])%list
    /\ block_types opening
       = [Some (PStr "header"); Some (PStr "header"); Some (PStr "section");
          Some (PStr "divider")]
    /\ get_is "type" "divider" last_block = false
    /\ get_is "type" "context" footer = true
    /\ (fetched + failed)%nat
       = List.length (milestones (snd (generate_weekly_report lib outside self w)))
    /\ List.length blocks = (4 + 6 * fetched + 2 * failed)%nat.
Proof.
  intros Hlast.
  destruct (run_anatomy lib outside self w)
    as (discovered & fetched & Hms & Hlen & Hempty & Hsome).
  cbv zeta in *. rewrite Hms.
  destruct discovered as [|d rest].
  - destruct (Hempty eq_refl) as (_ & Hsent & _). rewrite Hsent in Hlast.
    pose proof (last_of_suffix _ _ _ _ _ (github_requests self [])
                  ltac:(discriminate) Hlast) as [Hm _].
    discriminate Hm.
  - destruct Hsome as (start & Hstart & [(e & _ & _ & Hsent & _)
                                       |(all_blocks & footer & Hb & Hfooter & _ & Hsent & _)]);
      [discriminate| |].
    + rewrite Hsent in Hlast.
      pose proof (last_of_suffix _ _ _ _ _ (github_requests self (d :: rest))
                    ltac:(discriminate) Hlast) as [Hm _].
      discriminate Hm.
    + rewrite Hsent in Hlast. rewrite !app_assoc in Hlast.
      apply app_inj_tail in Hlast as [_ Hrq]. injection Hrq as <-.
      destruct (blocks_loop_body lib _ _ _ w (Hb w)) as (body & -> & Hbody & Hend).
      destruct Hend as (pre & last_block & -> & Hnodiv).
      { destruct fetched; discriminate. }
      exists start, pre, last_block, footer.
      eexists (List.length (filter is_fetched (combine (d :: rest) fetched))).
      eexists (List.length (combine (d :: rest) fetched)
               - List.length (filter is_fetched (combine (d :: rest) fetched)))%nat.
      replace (start ++ pre ++ [last_block; divider])%list
        with ((start ++ pre ++ [last_block]) ++ [divider])%list
        by (now rewrite <- !app_assoc).
      rewrite remove_last_divider_snoc.
      split; [now rewrite <- !app_assoc|].
      split; [exact Hstart|]. split; [exact Hnodiv|]. split; [exact Hfooter|].
      pose proof (filter_length_le is_fetched (combine (d :: rest) fetched)) as Hle.
      rewrite (combine_length_eq (d :: rest) fetched Hlen) in *.
      split; [lia|].
      assert (Hs4 : List.length start = 4%nat).
      { apply (f_equal (@List.length _)) in Hstart.
        unfold block_types in Hstart. now rewrite length_map in Hstart. }
      rewrite !length_app in *. cbn [List.length] in *. lia.
Qed.

End Requests.

(* ================================================================= *)
(** ** What a run reads of the bot's state *)

Section Frames.

Variable lib : DatetimeLib.
Variable outside : Outside lib.

Lemma with_stdout_same (w : World) : with_stdout (stdout w) w = w.
Proof. destruct w; reflexivity. Qed.

Lemma framed_ret {A : Type} (a : A) : stdout_framed (ret a).
Proof.
  intros w. exists (Ok a), [], w. intros out. now rewrite app_nil_r.
Qed.

Lemma framed_raise {A : Type} (e : exn) : stdout_framed (@raise A e).
Proof.
  intros w. exists (Raise e), [], w. intros out. now rewrite app_nil_r.
Qed.

Lemma framed_lift {A : Type} (r : result A) : stdout_framed (lift r).
Proof.
  intros w. exists r, [], w. intros out. now rewrite app_nil_r.
Qed.

Lemma framed_print (line : string) : stdout_framed (print line).
Proof. intros w. exists (Ok tt), [line], w. intros out. reflexivity. Qed.

Lemma framed_get_milestones : stdout_framed get_milestones.
Proof.
  intros w. exists (Ok (milestones w)), [], w. intros out. now rewrite app_nil_r.
Qed.

Lemma framed_set_milestones (ms : list ProjectConfig.t) :
  stdout_framed (set_milestones ms).
Proof.
  intros w. exists (Ok tt), [], (with_milestones ms w). intros out.
  now rewrite app_nil_r.
Qed.

Lemma framed_datetime_now : stdout_framed (datetime_now lib outside).
Proof.
  intros w.
  exists (Ok (now outside (clock_reads w))), [],
    (mk_world (stdout w) (sent w) (S (clock_reads w)) (milestones w)).
  intros out. now rewrite app_nil_r.
Qed.

Lemma framed_send {A : Type} (service : nat -> request -> outcome A) (rq : request) :
  stdout_framed (send service rq).
Proof.
  intros w. unfold send.
  destruct (service (List.length (sent w)) rq) as [msg|r] eqn:Hs.
  - exists (Raise (RequestException msg)), [],
      (mk_world (stdout w) (sent w ++ [rq])%list (clock_reads w) (milestones w)).
    intros out. cbn [with_stdout sent]. rewrite Hs, app_nil_r. reflexivity.
  - exists (Ok r), [],
      (mk_world (stdout w) (sent w ++ [rq])%list (clock_reads w) (milestones w)).
    intros out. cbn [with_stdout sent]. rewrite Hs, app_nil_r. reflexivity.
Qed.

Lemma framed_bind {A B : Type} (m : M A) (k : A -> M B) :
  stdout_framed m -> (forall a, stdout_framed (k a)) -> stdout_framed (bind m k).
Proof.
  intros Hm Hk w. destruct (Hm w) as ([a|e] & printed & w' & Hrun).
  - destruct (Hk a w') as (r & printed' & w'' & Hrun').
    exists r, (printed ++ printed')%list, w''. intros out.
    unfold bind. rewrite Hrun, Hrun', app_assoc. reflexivity.
  - exists (Raise e), printed, w'. intros out. unfold bind. now rewrite Hrun.
Qed.

Lemma framed_try {A : Type} (body : M A) (handler : string -> M A) :
  stdout_framed body -> (forall e, stdout_framed (handler e)) ->
  stdout_framed (try_except_RequestException body handler).
Proof.
  intros Hb Hh w. destruct (Hb w) as (r & printed & w' & Hrun).
  destruct r as [a|[msg|msg|]].
  - exists (Ok a), printed, w'. intros out.
    unfold try_except_RequestException. now rewrite Hrun.
  - destruct (Hh msg w') as (r & printed' & w'' & Hrun').
    exists r, (printed ++ printed')%list, w''. intros out.
    unfold try_except_RequestException. rewrite Hrun, Hrun', app_assoc. reflexivity.
  - exists (Raise (ValueError msg)), printed, w'. intros out.
    unfold try_except_RequestException. now rewrite Hrun.
  - exists (Raise ZeroDivisionError), printed, w'. intros out.
    unfold try_except_RequestException. now rewrite Hrun.
Qed.

Lemma framed_pure {A : Type} (m : M A) :
  (exists r, forall w, m w = (r, w)) -> stdout_framed m.
Proof.
  intros [r Hr] w. exists r, [], w. intros out. now rewrite Hr, app_nil_r.
Qed.

Ltac framed :=
  repeat first
    [ apply framed_ret | apply framed_raise | apply framed_lift | apply framed_print
    | apply framed_get_milestones | apply framed_set_milestones
    | apply framed_datetime_now | apply framed_send
    | apply framed_bind; [|intros]
    | apply framed_try; [|intros]
    | match goal with
      | |- stdout_framed (if ?b then _ else _) => destruct b
      | |- stdout_framed (match ?x with _ => _ end) => destruct x
      end
    | progress cbv zeta ].

Lemma framed_get_milestone_data (self : Bot.t) (project : ProjectConfig.t) :
  stdout_framed (get_milestone_data lib outside self project).
Proof. unfold get_milestone_data, raise_for_status. framed. Qed.

Lemma framed_discover_all_milestones (self : Bot.t) :
  stdout_framed (discover_all_milestones lib outside self).
Proof. unfold discover_all_milestones, raise_for_status. framed. Qed.

Lemma framed_send_slack_message (self : Bot.t) (blocks : list pyval) :
  stdout_framed (send_slack_message lib outside self blocks).
Proof. unfold send_slack_message, raise_for_status. framed. Qed.

Lemma framed_create_summary_blocks milestones_data :
  stdout_framed (create_summary_blocks lib outside milestones_data).
Proof. unfold create_summary_blocks. framed. Qed.

Lemma framed_fetch_loop (self : Bot.t) (todo : list ProjectConfig.t) :
  forall acc, stdout_framed (fetch_loop lib outside self todo acc).
Proof.
  induction todo as [|milestone rest IH]; intros acc; cbn [fetch_loop].
  - apply framed_ret.
  - apply framed_bind; [apply framed_print|]. intros _.
    apply framed_bind; [apply framed_get_milestone_data|]. intros data. apply IH.
Qed.

Lemma framed_generate_weekly_report (self : Bot.t) :
  stdout_framed (generate_weekly_report lib outside self).
Proof.
  unfold generate_weekly_report.
  apply framed_bind; [apply framed_print|]. intros _.
  apply framed_bind; [apply framed_print|]. intros _.
  apply framed_bind; [apply framed_discover_all_milestones|]. intros discovered.
  apply framed_bind; [apply framed_set_milestones|]. intros _.
  apply framed_bind; [apply framed_get_milestones|]. intros [|m ms].
  - apply framed_print.
  - apply framed_bind; [apply framed_fetch_loop|]. intros milestones_data. cbv zeta.
    apply framed_bind; [apply framed_create_summary_blocks|]. intros summary.
    apply framed_bind; [apply framed_pure, blocks_loop_pure|]. intros all_blocks.
    apply framed_bind; [apply framed_datetime_now|]. intros generated.
    apply framed_bind; [apply framed_send_slack_message|]. intros [|]; apply framed_print.
Qed.

(** The run does not depend on what [self.milestones] held before. *)
Lemma generate_ignores_milestones (self : Bot.t) (w : World) :
  exists outcome_of_run,
    forall ms,
      generate_weekly_report lib outside self (with_milestones ms w) = outcome_of_run.
Proof.
  destruct (discover_all_milestones_returns lib outside self (List.length (sent w)))
    as (discovered & line & Hrun & _).
  eexists. intros ms. unfold generate_weekly_report.
  erewrite bind_ok by reflexivity.
  erewrite bind_ok by reflexivity.
  erewrite bind_ok by (apply Hrun; reflexivity).
  erewrite bind_ok by reflexivity.
  erewrite bind_ok by reflexivity.
  cbn [with_milestones stdout sent clock_reads milestones].
  reflexivity.
Qed.

End Frames.

(* ================================================================= *)
(** ** Registration, the test run and the entry point *)

Section EntryPointFacts.

Variable lib : DatetimeLib.
Variable outside : Outside lib.

Lemma generate_after (self : Bot.t) (w : World) :
  exists res printed w',
    forall out ms,
      generate_weekly_report lib outside self (with_stdout out (with_milestones ms w))
      = (res, with_stdout (out ++ printed)%list w').
Proof.
  destruct (framed_generate_weekly_report lib outside self w) as (res & printed & w' & Hrun).
  destruct (generate_ignores_milestones lib outside self w) as (k & Hk).
  exists res, printed, w'. intros out ms.
  destruct (framed_generate_weekly_report lib outside self (with_milestones ms w))
    as (res2 & printed2 & w2 & Hrun2).
  rewrite Hrun2.
  pose proof (Hrun2 (stdout w)) as H2.
  change (with_stdout (stdout w) (with_milestones ms w)) with (with_milestones ms w) in H2.
  rewrite Hk in H2.
  pose proof (Hrun (stdout w)) as H1.
  rewrite with_stdout_same in H1.
  rewrite <- (Hk (milestones w)) in H2.
  change (with_milestones (milestones w) w)
    with (mk_world (stdout w) (sent w) (clock_reads w) (milestones w)) in H2.
  rewrite world_eta, H1 in H2.
  injection H2 as Hres Hout Hsent Hclock Hms.
  apply app_inv_head in Hout. subst res2 printed2.
  unfold with_stdout. now rewrite Hsent, Hclock, Hms.
Qed.

(** A milestone registered with [add_milestone] is appended to
    [self.milestones], and the next run discards it: the run replaces the list
    by what discovery returns, so it gives the same result, sends the same
    requests and leaves the same list as without the registration, whose only
    trace is the line it printed. *)
Theorem registered_milestone_is_discarded (self : Bot.t) (name : string)
    (milestone_number : Z) (emoji color : string) (w : World) :
  add_milestone self name milestone_number emoji color w
  = (Ok tt,
     mk_world (stdout w ++ [("✅ Added milestone: " ++ name)%string])%list (sent w)
       (clock_reads w)
       (milestones w
          ++ [ProjectConfig.mk name (Bot.repo_owner self) (Bot.repo_name self)
                milestone_number emoji color])%list)
  /\ exists res printed w',
      generate_weekly_report lib outside self w
      = (res, with_stdout (stdout w ++ printed)%list w')
      /\ (add_milestone self name milestone_number emoji color ;;
          generate_weekly_report lib outside self) w
         = (res,
            with_stdout
              (stdout w ++ ("✅ Added milestone: " ++ name)%string :: printed)%list w').
Proof.
  split; [reflexivity|].
  destruct (generate_after self w) as (res & printed & w' & Hrun).
  exists res, printed, w'. split.
  - pose proof (Hrun (stdout w) (milestones w)) as H.
    change (with_stdout (stdout w) (with_milestones (milestones w) w))
      with (mk_world (stdout w) (sent w) (clock_reads w) (milestones w)) in H.
    now rewrite world_eta in H.
  - erewrite bind_ok by reflexivity.
    match goal with
    | |- generate_weekly_report _ _ _ (mk_world ?out _ _ ?ms) = _ =>
        change (generate_weekly_report lib outside self
                  (with_stdout out (with_milestones ms w)) =
                (res, with_stdout
                        (stdout w ++ ("✅ Added milestone: " ++ name)%string :: printed)%list
                        w'))
    end.
    rewrite Hrun, <- app_assoc. reflexivity.
Qed.

(** The test run is the normal run after one more printed line: same
    result, same requests, same lines after it. *)
Theorem run_test_is_the_run (self : Bot.t) (w : World) :
  exists res printed w',
    generate_weekly_report lib outside self w
    = (res, with_stdout (stdout w ++ printed)%list w')
    /\ run_test lib outside self w
       = (res, with_stdout (stdout w ++ "🧪 Running test report..." :: printed)%list w').
Proof.
  destruct (framed_generate_weekly_report lib outside self w) as (res & printed & w' & Hrun).
  exists res, printed, w'. split.
  - pose proof (Hrun (stdout w)) as H. now rewrite with_stdout_same in H.
  - unfold run_test. erewrite bind_ok by reflexivity.
    match goal with
    | |- generate_weekly_report _ _ _ ?w1 = _ =>
        change w1 with (with_stdout (stdout w ++ ["🧪 Running test report..."])%list w)
    end.
    rewrite Hrun, <- app_assoc. reflexivity.
Qed.

(** When a credential is missing or empty, [main] prints two lines about
    the first one missing, in the order GitHub token, Slack token, user id,
    and returns without sending any request. *)
Theorem main_missing_credential (getenv : string -> option string)
    (argv : list string) (w : World) :
  (missing (getenv "GITHUB_TOKEN") = true ->
   main lib outside getenv argv w
   = (Ok tt,
      with_stdout
        (stdout w ++ ["❌ Missing GITHUB_TOKEN environment variable";
                      "Please set: export GITHUB_TOKEN='your_github_token_here'"])%list w))
  /\ (missing (getenv "GITHUB_TOKEN") = false ->
      missing (getenv "SLACK_BOT_TOKEN") = true ->
      main lib outside getenv argv w
      = (Ok tt,
         with_stdout
           (stdout w ++ ["❌ Missing SLACK_BOT_TOKEN environment variable";
                         "Please set: export SLACK_BOT_TOKEN='your_slack_bot_token_here'"])%list
           w))
  /\ (missing (getenv "GITHUB_TOKEN") = false ->
      missing (getenv "SLACK_BOT_TOKEN") = false ->
      missing (getenv "SLACK_USER_ID") = true ->
      main lib outside getenv argv w
      = (Ok tt,
         with_stdout
           (stdout w ++ ["❌ Missing SLACK_USER_ID environment variable";
                         "Please set: export SLACK_USER_ID='your_SLACK_USER_ID_here'"])%list
           w)).
Proof.
  unfold main, missing.
  destruct (getenv "GITHUB_TOKEN") as [[|g0 g]|];
    destruct (getenv "SLACK_BOT_TOKEN") as [[|b0 b]|];
    destruct (getenv "SLACK_USER_ID") as [[|u0 u]|];
    repeat split; intros; try discriminate;
    unfold bind, print, with_stdout; cbn; rewrite <- ?app_assoc; reflexivity.
Qed.

(** With the three credentials set, [main] is the run of the bot built
    from them: same result, same requests, the first of which is the
    discovery request carrying the GitHub token; the [--test] switch only
    adds one line before the run's. *)
Theorem main_with_credentials (getenv : string -> option string)
    (argv : list string) (w : World) (g b u : string) :
  getenv "GITHUB_TOKEN" = Some g -> getenv "SLACK_BOT_TOKEN" = Some b ->
  getenv "SLACK_USER_ID" = Some u ->
  g <> "" -> b <> "" -> u <> "" ->
  let bot := Bot.init b g u in
  exists res printed w' later,
    generate_weekly_report lib outside bot w
    = (res, with_stdout (stdout w ++ printed)%list w')
    /\ main lib outside getenv argv w
       = (res,
          with_stdout
            (stdout w ++ (if is_test_run argv then ["🧪 Running test report..."] else [])
               ++ printed)%list w')
    /\ sent w' = (sent w ++ discovery_request bot :: later)%list
    /\ url (discovery_request bot)
       = "https://api.github.com/repos/leyangloh/FakeProgress/milestones"
    /\ headers (discovery_request bot)
       = [("Authorization", "token " ++ g); ("Accept", "application/vnd.github.v3+json")].
Proof.
  intros Hg Hb Hu Hg0 Hb0 Hu0 bot.
  destruct (generate_after bot w) as (res & printed & w' & Hrun).
  assert (Hplain : generate_weekly_report lib outside bot w
                   = (res, with_stdout (stdout w ++ printed)%list w')).
  { pose proof (Hrun (stdout w) (milestones w)) as H.
    change (with_stdout (stdout w) (with_milestones (milestones w) w))
      with (mk_world (stdout w) (sent w) (clock_reads w) (milestones w)) in H.
    now rewrite world_eta in H. }
  assert (Hsent : exists later, sent w' = (sent w ++ discovery_request bot :: later)%list).
  { destruct (run_anatomy lib outside bot w)
      as (discovered & fetched & _ & _ & Hempty & Hsome).
    cbv zeta in *. rewrite Hplain in *. cbn [snd with_stdout sent] in *.
    destruct discovered as [|d rest].
    - destruct (Hempty eq_refl) as (_ & -> & _). eexists. reflexivity.
    - destruct Hsome as (start & _ & [(e & _ & _ & -> & _)
                                    |(all_blocks & footer & _ & _ & _ & -> & _)]);
        [discriminate| |]; eexists; cbn [app]; reflexivity. }
  destruct Hsent as [later Hsent].
  exists res, printed, w', later.
  split; [exact Hplain|]. split; [|split; [exact Hsent|split; reflexivity]].
  unfold main. rewrite Hg, Hb, Hu.
  destruct g as [|g0 g']; [congruence|].
  destruct b as [|b0 b']; [congruence|].
  destruct u as [|u0 u']; [congruence|].
  fold bot. erewrite bind_ok by reflexivity.
  destruct (is_test_run argv).
  - unfold run_test. erewrite bind_ok by reflexivity.
    match goal with
    | |- generate_weekly_report _ _ _ ?w1 = _ =>
        change w1 with (with_stdout (stdout w ++ ["🧪 Running test report..."])%list
                          (with_milestones [] w))
    end.
    rewrite Hrun, <- app_assoc. reflexivity.
  - lazy beta iota.
    match goal with
    | |- generate_weekly_report _ _ _ ?w1 = _ =>
        change w1 with (with_stdout (stdout w) (with_milestones [] w))
    end.
    rewrite Hrun. reflexivity.
Qed.

End EntryPointFacts.

(* ================================================================= *)
(** ** These theorems at work on the samples *)

Lemma create_progress_bar_monotone_witness :
  (Py.count filled_char (create_progress_bar 25 20)
   <= Py.count filled_char (create_progress_bar 50 20))%nat.
Proof.
  apply (create_progress_bar_monotone 25 50 20); discriminate.
Defined.

Lemma create_progress_bar_full_iff_witness :
  Py.count empty_char (create_progress_bar 100 20) = 0%nat <-> (100 == 100)%Q.
Proof.
  apply (create_progress_bar_full_iff 100 20); [split; discriminate | reflexivity].
Defined.

Lemma summary_figures_bounds_witness :
  0 <= completed_milestones Sample.one_failed
    <= Z.of_nat (List.length (fetched_percentages Sample.one_failed))
  /\ Z.of_nat (List.length (fetched_percentages Sample.one_failed))
     <= total_milestones Sample.one_failed
  /\ exists avg, avg_progress Sample.one_failed = Ok avg /\ (0 <= avg <= 100)%Q.
Proof.
  apply (summary_figures_bounds Sample.one_failed).
  repeat constructor; discriminate.
Defined.


Lemma remove_last_divider_cases_witness :
  remove_last_divider ([divider] ++ [header "Alpha"]) = ([divider] ++ [header "Alpha"])%list.
Proof.
  exact (proj2 (proj2 (proj2 remove_last_divider_cases)) [divider] (header "Alpha") eq_refl).
Defined.

Lemma discovered_emoji_round_robin_witness :
  exists discovered w',
    discover_all_milestones Sample.lib Sample.accepting Sample.bot Sample.w0
    = (Ok discovered, w')
    /\ forall k config,
        nth_error discovered k = Some config ->
        ProjectConfig.emoji config = nth (k mod 6) palette "📋"
        /\ ProjectConfig.emoji config <> "📋"
        /\ forall config',
            nth_error discovered (k + 6) = Some config' ->
            ProjectConfig.emoji config' = ProjectConfig.emoji config.
Proof.
  exact (discovered_emoji_round_robin Sample.lib Sample.accepting Sample.bot Sample.w0
           (mk_response 200 "OK" [Sample.alpha; Sample.beta; Sample.gamma])
           eq_refl eq_refl).
Defined.

Lemma discovery_keeps_order_witness :
  exists discovered,
    discover_all_milestones Sample.lib Sample.accepting Sample.bot Sample.w0
    = (Ok discovered,
       after_delivery Sample.w0 (discovery_request Sample.bot)
         "🔍 Discovered 3 milestones in leyangloh/FakeProgress")
    /\ map ProjectConfig.name discovered = ["Alpha"; "Beta"; "Gamma"]
    /\ map ProjectConfig.milestone_number discovered = [1; 2; 3]
    /\ Forall (fun config => ProjectConfig.repo_owner config = "leyangloh"
                             /\ ProjectConfig.repo_name config = "FakeProgress")
         discovered.
Proof.
  exact (discovery_keeps_order Sample.lib Sample.accepting Sample.bot Sample.w0
           (mk_response 200 "OK" [Sample.alpha; Sample.beta; Sample.gamma])
           eq_refl eq_refl).
Defined.


Lemma create_project_block_shape_witness :
  exists blocks,
    create_project_block Sample.lib (Sample.config "A" 1) (Sample.snapshot 1 2 50)
      Sample.w0 = (Ok blocks, Sample.w0)
    /\ block_types blocks = project_block_types
    /\ nth_error blocks 0 = Some (header "A")
    /\ nth_error blocks 5 = Some divider.
Proof.
  exact (proj1 (create_project_block_shape Sample.lib (Sample.config "A" 1)
                  (Sample.snapshot 1 2 50) Sample.w0) eq_refl).
Defined.

Lemma send_slack_message_true_iff_witness :
  exists line,
    send_slack_message Sample.lib Sample.accepting Sample.bot [divider] Sample.w0
    = (Ok true, after_delivery Sample.w0 (slack_request Sample.bot [divider]) line)
    /\ line = "✅ Successfully sent progress report to Slack!".
Proof.
  destruct (send_slack_message_true_iff Sample.lib Sample.accepting Sample.bot
              [divider] Sample.w0) as (success & line & Hrun & Hiff & Hline).
  assert (Hs : success = true) by (apply Hiff; reflexivity).
  subst success. exists line. split; [exact Hrun | exact (Hline eq_refl)].
Defined.

Lemma run_requests_witness :
  exists delivery,
    sent (snd (generate_weekly_report Sample.lib Sample.offline Sample.bot Sample.w0))
    = ([] ++ (discovery_request Sample.bot
                :: map (milestone_request Sample.bot)
                     (milestones
                        (snd (generate_weekly_report Sample.lib Sample.offline
                                Sample.bot Sample.w0))))
          ++ delivery)%list
    /\ delivery = [].
Proof.
  destruct (run_requests Sample.lib Sample.offline Sample.bot Sample.w0)
    as (delivery & Hsent & _ & _ & Hnone).
  exists delivery. split; [exact Hsent | apply Hnone; reflexivity].
Defined.

Lemma delivered_document_shape_witness :
  exists opening middle last_block footer fetched failed,
    SampleEnv.delivered_blocks = (opening ++ middle ++ [last_block; footer])%list
    /\ block_types opening
       = [Some (PStr "header"); Some (PStr "header"); Some (PStr "section");
          Some (PStr "divider")]
    /\ get_is "type" "divider" last_block = false
    /\ get_is "type" "context" footer = true
    /\ (fetched + failed)%nat = List.length (milestones (snd SampleEnv.delivered_run))
    /\ List.length SampleEnv.delivered_blocks = (4 + 6 * fetched + 2 * failed)%nat.
Proof.
  apply (delivered_document_shape Sample.lib Sample.accepting Sample.bot Sample.w0
           SampleEnv.delivered_before SampleEnv.delivered_blocks).
  vm_compute. reflexivity.
Defined.

Lemma main_missing_credential_witness :
  main Sample.lib Sample.accepting SampleEnv.no_slack_token ["bot.py"] Sample.w0
  = (Ok tt,
     with_stdout
       ["❌ Missing SLACK_BOT_TOKEN environment variable";
        "Please set: export SLACK_BOT_TOKEN='your_slack_bot_token_here'"] Sample.w0).
Proof.
  exact (proj1 (proj2 (main_missing_credential Sample.lib Sample.accepting
                         SampleEnv.no_slack_token ["bot.py"] Sample.w0))
           eq_refl eq_refl).
Defined.

Lemma main_with_credentials_witness :
  exists res printed w' later,
    generate_weekly_report Sample.lib Sample.accepting Sample.bot Sample.w0
    = (res, with_stdout ([] ++ printed)%list w')
    /\ main Sample.lib Sample.accepting SampleEnv.complete ["bot.py"; "--test"] Sample.w0
       = (res, with_stdout ([] ++ ["🧪 Running test report..."] ++ printed)%list w')
    /\ sent w' = ([] ++ discovery_request Sample.bot :: later)%list
    /\ url (discovery_request Sample.bot)
       = "https://api.github.com/repos/leyangloh/FakeProgress/milestones"
    /\ headers (discovery_request Sample.bot)
       = [("Authorization", "token ghp-token"); ("Accept", "application/vnd.github.v3+json")].
Proof.
  apply (main_with_credentials Sample.lib Sample.accepting SampleEnv.complete
           ["bot.py"; "--test"] Sample.w0 "ghp-token" "xoxb-token" "U123");
    try reflexivity; discriminate.
Defined.
